(** * cPanel WordPress deployer: the deployment orchestration, embedded and verified

    A shallow embedding of [cpanel-wordpress-deployer.py].  Python values
    are a small inductive type, the report dictionary is a finite map, and
    every effect of the program (HTTP requests, reads of local files, random
    draws) goes through an explicit event log answered by a [world]. *)

From Stdlib Require Import ZArith String Ascii List Bool Lia SpecFloat.
From stdpp Require Import base option list gmap strings pretty.

(** ** Python values *)

#[local] Unset Elimination Schemes.

Inductive pyval : Type :=
| PNone
| PBool (b : bool)
| PInt (z : Z)
| PFloat (x : spec_float)
| PStr (s : string)
| PList (l : list pyval)
| PDict (d : list (string * pyval)).

#[local] Set Elimination Schemes.

(** A JSON object / Python [dict] literal with string keys. *)
Abbreviation dict := (list (string * pyval)).

(** The report built by the orchestrator: step name to value. *)
Abbreviation report := (gmap string pyval).

(** Python truthiness, as used by [if], [not], [and], [or]. *)
Definition truthy (v : pyval) : bool :=
  match v with
  | PNone => false
  | PBool b => b
  | PInt z => negb (z =? 0)%Z
  | PFloat x => match x with S754_zero _ => false | _ => true end
  | PStr s => negb (String.eqb s "")
  | PList l => match l with [] => false | _ => true end
  | PDict d => match d with [] => false | _ => true end
  end.

(** [a and b] on values: the first operand when it is falsy, else the second. *)
Definition py_and (a b : pyval) : pyval := if truthy a then b else a.

(** [d.get(k, default)] on a dict. *)
Fixpoint dict_get (d : dict) (k : string) (default : pyval) : pyval :=
  match d with
  | [] => default
  | (k', v) :: rest => if String.eqb k' k then v else dict_get rest k default
  end.

(** The [status] a caller reads off a call result: [r.get("status", 0)]. *)
Definition status (d : dict) : pyval := dict_get d "status" (PInt 0%Z).

(** Truthiness of an optional string argument ([None] and [''] are falsy). *)
Definition opt_truthy (o : option string) : bool :=
  match o with
  | Some s => negb (String.eqb s "")
  | None => false
  end.

(** Truthiness of an optional list argument ([None] and [[]] are falsy). *)
Definition optlist_truthy {A} (o : option (list A)) : bool :=
  match o with
  | Some (_ :: _) => true
  | _ => false
  end.

(** ** Text helpers *)

Definition nl : string := String "010"%char EmptyString.
Definition dquote : string := String "034"%char EmptyString.

(** [sep.join(l)]. *)
Fixpoint join (sep : string) (l : list string) : string :=
  match l with
  | [] => ""
  | [x] => x
  | x :: rest => x +:+ sep +:+ join sep rest
  end.

Definition b64_alphabet : string :=
  "ABCDEFGHIJKLMNOPQRSTUVWXYZabcdefghijklmnopqrstuvwxyz0123456789+/".

Definition b64_char (n : N) : string :=
  match String.get (N.to_nat n) b64_alphabet with
  | Some c => String c ""
  | None => "="
  end.

(** [base64.b64encode(bytes).decode()]: a Rocq string is a byte string. *)
Fixpoint b64encode (s : string) : string :=
  match s with
  | EmptyString => ""
  | String a EmptyString =>
      let x := N_of_ascii a in
      b64_char (x / 4) +:+ b64_char ((x mod 4) * 16) +:+ "=="
  | String a (String b EmptyString) =>
      let x := N_of_ascii a in
      let y := N_of_ascii b in
      b64_char (x / 4) +:+ b64_char ((x mod 4) * 16 + y / 16)
        +:+ b64_char ((y mod 16) * 4) +:+ "="
  | String a (String b (String c rest)) =>
      let x := N_of_ascii a in
      let y := N_of_ascii b in
      let z := N_of_ascii c in
      b64_char (x / 4) +:+ b64_char ((x mod 4) * 16 + y / 16)
        +:+ b64_char ((y mod 16) * 4 + z / 64) +:+ b64_char (z mod 64)
        +:+ b64encode rest
  end%N.

(** Split at the last slash: the head keeps the slash (posixpath). *)
Fixpoint rsplit_slash (p : string) : option (string * string) :=
  match p with
  | EmptyString => None
  | String c rest =>
      match rsplit_slash rest with
      | Some (h, t) => Some (String c h, t)
      | None => if Ascii.eqb c "/" then Some ("/", rest) else None
      end
  end.

Fixpoint all_slashes (s : string) : bool :=
  match s with
  | EmptyString => true
  | String c rest => Ascii.eqb c "/" && all_slashes rest
  end.

(** [s.rstrip('/')]. *)
Fixpoint rstrip_slash (s : string) : string :=
  match s with
  | EmptyString => ""
  | String c rest => if all_slashes s then "" else String c (rstrip_slash rest)
  end.

(** [os.path.basename]. *)
Definition basename (p : string) : string :=
  match rsplit_slash p with
  | Some (_, t) => t
  | None => p
  end.

(** [os.path.dirname]. *)
Definition dirname (p : string) : string :=
  match rsplit_slash p with
  | Some (h, _) => if all_slashes h then h else rstrip_slash h
  | None => ""
  end.

(** ** Effects: the event log and the world that answers it *)

Inductive event : Type :=
| EStep (name : string)
    (** the orchestrator reached the assignment [results[name] = ...] *)
| EPost (url : string) (headers : list (string * string)) (json : dict)
    (** [requests.post(url, headers=..., json=...)] *)
| EGet (url : string)
    (** [requests.get(url)] *)
| EOpen (path : string)
    (** [open(path, 'rb')] *).

(** [requests.exceptions.RequestException] and its subclasses; each carries
    the text that [str(e)] yields. *)
Inductive RequestException : Type :=
| ConnectionError (msg : string)
| Timeout (msg : string)
| HTTPError (msg : string)
| JSONDecodeError (msg : string)
| OtherRequestException (msg : string).

Definition str_exc (e : RequestException) : string :=
  match e with
  | ConnectionError m | Timeout m | HTTPError m | JSONDecodeError m
  | OtherRequestException m => m
  end.

(** The exceptions the program itself can let escape: the two it raises on
    its own values, and any other exception by the name of its class. *)
Inductive exn : Type :=
| AttributeError (msg : string)
| KeyError (key : string)
| OtherException (name msg : string).

(** What a call inside the [try] of [make_api_request] raises: an exception
    that [except requests.exceptions.RequestException] catches, or any
    other, which the [except] clause lets through. *)
Inductive raised : Type :=
| Caught (e : RequestException)
| Escapes (e : exn).

(** An HTTP response to a POST: the status line, [response.url] (the final
    URL, as [requests] normalised it), and what [response.json()] does:
    raise, or return the decoded body, which can be any JSON value. *)
Record Response : Type := {
  status_code : Z;
  reason : string;
  response_url : string;
  json_body : raised + pyval
}.

Inductive post_outcome : Type :=
| PostRaises (e : raised)
| PostResponds (r : Response).

Inductive get_outcome : Type :=
| GetRaises (description : string)
| GetResponds (text : string).

(** Everything outside the program.  Answers may depend on the whole
    history of events. *)
Record world : Type := {
  requests_post : list event -> string -> list (string * string) -> dict -> post_outcome;
  requests_get : list event -> string -> get_outcome;
  open_rb : list event -> string -> string + string;
    (** [inl] the description of the error raised, [inr] the file's bytes *)
  random_below : list event -> nat -> nat -> nat
    (** the [i]-th draw of an index below [n] *)
}.

Inductive outcome (A : Type) : Type :=
| Returns (a : A)
| Raises (e : exn).
Arguments Returns {A} a.
Arguments Raises {A} e.

(** A computation: from the log so far to an outcome and the log after. *)
Definition M (A : Type) : Type := list event -> outcome A * list event.

Definition ret {A} (a : A) : M A := fun t => (Returns a, t).

Definition raise {A} (e : exn) : M A := fun t => (Raises e, t).

Definition bind {A B} (m : M A) (k : A -> M B) : M B :=
  fun t =>
    match m t with
    | (Returns a, t') => k a t'
    | (Raises e, t') => (Raises e, t')
    end.

Definition log (e : event) : M unit := fun t => (Returns tt, t ++ [e]).

Notation "'let*' x ':=' m 'in' k" := (bind m (fun x => k))
  (at level 10, x name, m at level 100, k at level 200).

(** A run starts from the empty log. *)
Definition run {A} (m : M A) : outcome A * list event := m [].

(** The steps attempted, in order, as recorded in a log. *)
Fixpoint steps_of (t : list event) : list string :=
  match t with
  | [] => []
  | EStep k :: rest => k :: steps_of rest
  | _ :: rest => steps_of rest
  end.

(** [results[k]]. *)
Definition getitem (results : report) (k : string) : M pyval :=
  match results !! k with
  | Some v => ret v
  | None => raise (KeyError k)
  end.

(** [v.get(k, default)]: only a dict has [get]. *)
Definition py_get (v : pyval) (k : string) (default : pyval) : M pyval :=
  match v with
  | PDict d => ret (dict_get d k default)
  | PNone => raise (AttributeError "'NoneType' object has no attribute 'get'")
  | PBool _ => raise (AttributeError "'bool' object has no attribute 'get'")
  | PInt _ => raise (AttributeError "'int' object has no attribute 'get'")
  | PFloat _ => raise (AttributeError "'float' object has no attribute 'get'")
  | PStr _ => raise (AttributeError "'str' object has no attribute 'get'")
  | PList _ => raise (AttributeError "'list' object has no attribute 'get'")
  end.

(** [results[k].get("status", 0)]. *)
Definition status_at (results : report) (k : string) : M pyval :=
  let* v := getitem results k in py_get v "status" (PInt 0%Z).

(** [results[k] = m], with the step recorded before [m] runs. *)
Definition assign (results : report) (k : string) (m : M pyval) : M report :=
  let* _ := log (EStep k) in
  let* v := m in
  ret (<[k := v]> results).

(** ** The deployer object *)

Record deployer : Type := {
  hostname : string;
  username : string;
  port : Z;
  base_url : string;
  headers : list (string * string)
}.

(** [CPanelWordPressDeployer.__init__]; [auth_type] is ["password"] or a token. *)
Definition init (hostname username auth_type auth_value : string) (port : Z) : deployer :=
  {| hostname := hostname;
     username := username;
     port := port;
     base_url := "https://" +:+ hostname +:+ ":" +:+ pretty port +:+ "/execute/";
     headers :=
       if String.eqb auth_type "password" then
         let auth_string := b64encode (username +:+ ":" +:+ auth_value) in
         [("Authorization", "Basic " +:+ auth_string);
          ("Content-Type", "application/json")]
       else
         [("Authorization", "cpanel " +:+ username +:+ ":" +:+ auth_value);
          ("Content-Type", "application/json")] |}.

(** [Response.raise_for_status]: an [HTTPError] for 4xx and 5xx, whose text
    quotes [response.url]. *)
Definition raise_for_status (r : Response) : option RequestException :=
  if (400 <=? status_code r)%Z && (status_code r <? 500)%Z then
    Some (HTTPError (pretty (status_code r) +:+ " Client Error: " +:+ reason r
                       +:+ " for url: " +:+ response_url r))
  else if (500 <=? status_code r)%Z && (status_code r <? 600)%Z then
    Some (HTTPError (pretty (status_code r) +:+ " Server Error: " +:+ reason r
                       +:+ " for url: " +:+ response_url r))
  else None.

(** The dict of the [except] branch of [make_api_request]. *)
Definition request_failed (e : RequestException) : dict :=
  [("status", PInt 0); ("errors", PList [PStr (str_exc e)]); ("data", PNone)].

(** What the [try] of [make_api_request] comes to for a given answer of
    [requests.post]: a caught exception gives the failed result, any other
    exception escapes, and a decoded body is returned as it is. *)
Definition api_result (o : post_outcome) : outcome pyval :=
  match o with
  | PostRaises (Caught e) => Returns (PDict (request_failed e))
  | PostRaises (Escapes e) => Raises e
  | PostResponds r =>
      match raise_for_status r with
      | Some e => Returns (PDict (request_failed e))
      | None =>
          match json_body r with
          | inl (Caught e) => Returns (PDict (request_failed e))
          | inl (Escapes e) => Raises e
          | inr v => Returns v
          end
      end
  end.

Section Deployer.

Variable w : world.
Variable self : deployer.

Definition make_api_request (module function : string) (params : option dict) : M pyval :=
  fun t =>
    let url := base_url self +:+ module +:+ "/" +:+ function in
    let body := match params with Some ((_ :: _) as p) => p | _ => [] end in
    (api_result (requests_post w t url (headers self) body),
     t ++ [EPost url (headers self) body]).

(** The text of [create_wp_config] between the salts and the request is
    damaged in the source file: of the two assignments, to [wp_config] (a
    triple-quoted f-string) and to [cmd], only the tail of the command
    survives, [ {path}/wp-config.php << 'EOL'\n{wp_config}\nEOL].  The lost parts are
    taken as parameters: the configuration text as a function of the values
    in scope, and the head of the command. *)
Variable wp_config_php :
  deployer -> string -> string -> string -> string -> string -> string -> string.
Variable cmd_head : string.

(** *** Database management *)

Definition create_database (db_name charset : string) : M pyval :=
  let full_db_name := username self +:+ "_" +:+ db_name in
  make_api_request "Mysql" "create_database"
    (Some [("name", PStr db_name); ("charset", PStr charset)]).

Definition create_db_user (user_name password : string) : M pyval :=
  let full_user_name := username self +:+ "_" +:+ user_name in
  make_api_request "Mysql" "create_user"
    (Some [("name", PStr user_name); ("password", PStr password)]).

Definition assign_user_to_db (db_name user_name privileges : string) : M pyval :=
  make_api_request "Mysql" "set_privileges_on_database"
    (Some [("database", PStr (username self +:+ "_" +:+ db_name));
           ("user", PStr (username self +:+ "_" +:+ user_name));
           ("privileges", PStr privileges)]).

(** *** WordPress installation *)

Definition download_wordpress (destination_path : string) : M pyval :=
  make_api_request "Execute" "exec"
    (Some [("command",
            PStr ("cd " +:+ destination_path
                  +:+ " && wget https://wordpress.org/latest.zip && unzip latest.zip && mv wordpress/* . && rm -rf wordpress latest.zip"))]).

Definition ascii_letters : string :=
  "abcdefghijklmnopqrstuvwxyzABCDEFGHIJKLMNOPQRSTUVWXYZ".
Definition digits : string := "0123456789".
Definition punctuation : string :=
  "!" +:+ dquote +:+ "#$%&'()*+,-./:;<=>?@[\]^_`{|}~".

(** [random.choice(chars)] for the [i]-th draw made at log [t]. *)
Definition random_choice (t : list event) (i : nat) (chars : string) : string :=
  match String.get (random_below w t i (String.length chars) mod String.length chars)%nat chars with
  | Some c => String c ""
  | None => ""
  end.

(** [''.join(random.choice(chars) for _ in range(64))]. *)
Definition random_string (t : list event) : string :=
  let chars := ascii_letters +:+ digits +:+ punctuation in
  join "" (map (fun i => random_choice t i chars) (seq 0 64)).

(** The f-string of the [except] branch. *)
Definition fallback_salts (random_string : string) : string :=
  nl +:+
  "define('AUTH_KEY',         '" +:+ random_string +:+ "');" +:+ nl +:+
  "define('SECURE_AUTH_KEY',  '" +:+ random_string +:+ "');" +:+ nl +:+
  "define('LOGGED_IN_KEY',    '" +:+ random_string +:+ "');" +:+ nl +:+
  "define('NONCE_KEY',        '" +:+ random_string +:+ "');" +:+ nl +:+
  "define('AUTH_SALT',        '" +:+ random_string +:+ "');" +:+ nl +:+
  "define('SECURE_AUTH_SALT', '" +:+ random_string +:+ "');" +:+ nl +:+
  "define('LOGGED_IN_SALT',   '" +:+ random_string +:+ "');" +:+ nl +:+
  "define('NONCE_SALT',       '" +:+ random_string +:+ "');" +:+ nl.

Definition salt_url : string := "https://api.wordpress.org/secret-key/1.1/salt/".

(** The [try]/[except] of [create_wp_config] that yields [salts]. *)
Definition fetch_salts : M string :=
  fun t =>
    let t' := t ++ [EGet salt_url] in
    match requests_get w t salt_url with
    | GetResponds text => (Returns text, t')
    | GetRaises _ => (Returns (fallback_salts (random_string t')), t')
    end.

(** The command sent by [create_wp_config] for given salts. *)
Definition wp_config_cmd (path db_name db_user db_password db_host salts : string) : string :=
  let wp_config := wp_config_php self path db_name db_user db_password db_host salts in
  cmd_head +:+ " " +:+ path +:+ "/wp-config.php << 'EOL'" +:+ nl +:+ wp_config +:+ nl +:+ "EOL".

Definition create_wp_config (path db_name db_user db_password db_host : string) : M pyval :=
  let* salts := fetch_salts in
  let cmd := wp_config_cmd path db_name db_user db_password db_host salts in
  make_api_request "Execute" "exec" (Some [("command", PStr cmd)]).

Definition set_file_permissions (path : string) : M pyval :=
  let commands :=
    nl +:+ "find " +:+ path +:+ " -type d -exec chmod 755 {} \;" +:+ nl +:+
    "find " +:+ path +:+ " -type f -exec chmod 644 {} \;" +:+ nl +:+
    "chmod 600 " +:+ path +:+ "/wp-config.php" +:+ nl in
  make_api_request "Execute" "exec" (Some [("command", PStr commands)]).

Definition run_wp_installation
    (path site_url title admin_user admin_password admin_email : string) : M pyval :=
  let command :=
    nl +:+ "cd " +:+ path +:+ " &&" +:+ nl +:+
    "wp core install --url='" +:+ site_url +:+ "' --title='" +:+ title
      +:+ "' --admin_user='" +:+ admin_user +:+ "' --admin_password='" +:+ admin_password
      +:+ "' --admin_email='" +:+ admin_email +:+ "' --skip-email" +:+ nl in
  make_api_request "Execute" "exec" (Some [("command", PStr command)]).

(** *** Elementor *)

Definition install_elementor (path : string) : M pyval :=
  let command :=
    nl +:+ "cd " +:+ path +:+ " &&" +:+ nl +:+
    "wp plugin install elementor --activate" +:+ nl in
  make_api_request "Execute" "exec" (Some [("command", PStr command)]).

Definition install_elementor_pro (path : string) (license_key pro_zip_path : option string)
    : M pyval :=
  if negb (opt_truthy license_key) then
    ret (PDict [("status", PInt 0);
                ("errors", PList [PStr "No Elementor Pro license key provided"])])
  else if negb (opt_truthy pro_zip_path) then
    ret (PDict [("status", PInt 0);
                ("errors", PList [PStr "No Elementor Pro zip file path provided"])])
  else
    let command :=
      nl +:+ "cd " +:+ path +:+ " &&" +:+ nl +:+
      "wp plugin install " +:+ default "" pro_zip_path +:+ " --activate &&" +:+ nl +:+
      "wp elementor license activate " +:+ default "" license_key +:+ nl in
    make_api_request "Execute" "exec" (Some [("command", PStr command)]).

(** The command of [import_elementor_kit] for a kit source. *)
Definition kit_import_command (path source : string) : string :=
  nl +:+ "cd " +:+ path +:+ " &&" +:+ nl +:+
  "wp elementor kit import " +:+ source +:+ " --yes" +:+ nl.

Definition import_elementor_kit (path : string) (kit_url kit_file : option string) : M pyval :=
  if opt_truthy kit_url then
    make_api_request "Execute" "exec"
      (Some [("command", PStr (kit_import_command path (default "" kit_url)))])
  else if opt_truthy kit_file then
    make_api_request "Execute" "exec"
      (Some [("command", PStr (kit_import_command path (default "" kit_file)))])
  else
    ret (PDict [("status", PInt 0); ("errors", PList [PStr "No kit URL or file provided"])]).

(** [open(local_path, 'rb')], [read()] and the Base64 encoding. *)
Definition read_base64 (local_path : string) : M (string + string) :=
  fun t =>
    (Returns match open_rb w t local_path with
             | inl e => inl e
             | inr file_content => inr (b64encode file_content)
             end,
     t ++ [EOpen local_path]).

Definition upload_kit_file (local_path server_path : string) : M pyval :=
  let* content := read_base64 local_path in
  match content with
  | inl e =>
      ret (PDict [("status", PInt 0);
                  ("errors", PList [PStr ("Failed to read local file: " +:+ e)])])
  | inr file_content_base64 =>
      let params := [("dir", PStr (dirname server_path));
                     ("file", PStr (basename server_path));
                     ("content", PStr file_content_base64)] in
      make_api_request "Fileman" "save_file_content" (Some params)
  end.

Definition upload_elementor_pro_zip (local_path server_path : string) : M pyval :=
  let* content := read_base64 local_path in
  match content with
  | inl e =>
      ret (PDict [("status", PInt 0);
                  ("errors", PList [PStr ("Failed to read Elementor Pro zip: " +:+ e)])])
  | inr file_content_base64 =>
      let params := [("dir", PStr (dirname server_path));
                     ("file", PStr (basename server_path));
                     ("content", PStr file_content_base64)] in
      make_api_request "Fileman" "save_file_content" (Some params)
  end.

(** *** The two pipelines *)

(** The nine positional arguments shared by both deployment methods. *)
Record site : Type := {
  domain : string;
  path : string;
  db_name : string;
  db_user : string;
  db_password : string;
  site_title : string;
  admin_user : string;
  admin_password : string;
  admin_email : string
}.

(** The dictionary [results] as [deploy_wordpress] initialises it. *)
Definition initial_results (domain : string) : report :=
  <["admin_url" := PStr ("https://" +:+ domain +:+ "/wp-admin/")]>
  (<["success" := PBool false]>
  (<["plugin_installation" := PNone]>
  (<["theme_installation" := PNone]>
  (<["installation" := PNone]>
  (<["permissions" := PNone]>
  (<["wp_config_creation" := PNone]>
  (<["wordpress_download" := PNone]>
  (<["user_privileges" := PNone]>
  (<["database_user_creation" := PNone]>
  (<["database_creation" := PNone]> ∅)))))))))).

(** [all(r.get("status", 0) for r in values)]: stops at the first falsy status. *)
Fixpoint all_status (values : list pyval) : M bool :=
  match values with
  | [] => ret true
  | r :: rest =>
      let* s := py_get r "status" (PInt 0%Z) in
      if truthy s then all_status rest else ret false
  end.

(** [[results[k] for k in keys]]. *)
Fixpoint getitems (results : report) (keys : list string) : M (list pyval) :=
  match keys with
  | [] => ret []
  | k :: rest =>
      let* v := getitem results k in
      let* vs := getitems results rest in
      ret (v :: vs)
  end.

(** The steps whose statuses the base pipeline aggregates, in pipeline order. *)
Definition critical_steps : list string :=
  ["database_creation"; "database_user_creation"; "user_privileges";
   "wordpress_download"; "wp_config_creation"; "permissions"; "installation"].

Definition deploy_wordpress (a : site)
    (install_theme : option string) (install_plugins : option (list string)) : M report :=
  let results := initial_results (domain a) in
  (* Step 1: Create database *)
  let* results := assign results "database_creation" (create_database (db_name a) "utf8") in
  let* s := status_at results "database_creation" in
  if negb (truthy s) then ret results else
  (* Step 2: Create database user *)
  let* results := assign results "database_user_creation"
                    (create_db_user (db_user a) (db_password a)) in
  let* s := status_at results "database_user_creation" in
  if negb (truthy s) then ret results else
  (* Step 3: Assign user to database *)
  let* results := assign results "user_privileges"
                    (assign_user_to_db (db_name a) (db_user a) "ALL PRIVILEGES") in
  let* s := status_at results "user_privileges" in
  if negb (truthy s) then ret results else
  (* Step 4: Download WordPress *)
  let* results := assign results "wordpress_download" (download_wordpress (path a)) in
  let* s := status_at results "wordpress_download" in
  if negb (truthy s) then ret results else
  (* Step 5: Create wp-config.php *)
  let* results := assign results "wp_config_creation"
                    (create_wp_config (path a) (db_name a) (db_user a) (db_password a)
                       "localhost") in
  let* s := status_at results "wp_config_creation" in
  if negb (truthy s) then ret results else
  (* Step 6: Set file permissions *)
  let* results := assign results "permissions" (set_file_permissions (path a)) in
  let* s := status_at results "permissions" in
  if negb (truthy s) then ret results else
  (* Step 7: Install WordPress *)
  let* results := assign results "installation"
                    (run_wp_installation (path a) (domain a) (site_title a) (admin_user a)
                       (admin_password a) (admin_email a)) in
  let* s := status_at results "installation" in
  if negb (truthy s) then ret results else
  (* Step 8: Install theme if specified *)
  let* theme_wanted :=
    if opt_truthy install_theme
    then let* s := status_at results "installation" in ret (truthy s)
    else ret false in
  let* results :=
    if theme_wanted : bool
    then assign results "theme_installation"
           (make_api_request "Execute" "exec"
              (Some [("command",
                      PStr ("cd " +:+ path a +:+ " && wp theme install "
                            +:+ default "" install_theme +:+ " --activate"))]))
    else ret results in
  (* Step 9: Install plugins if specified *)
  let* plugins_wanted :=
    if optlist_truthy install_plugins
    then let* s := status_at results "installation" in ret (truthy s)
    else ret false in
  let* results :=
    if plugins_wanted : bool
    then
      let plugin_commands :=
        join " && " (map (fun p => "wp plugin install " +:+ p +:+ " --activate")
                         (default [] install_plugins)) in
      assign results "plugin_installation"
        (make_api_request "Execute" "exec"
           (Some [("command", PStr ("cd " +:+ path a +:+ " && " +:+ plugin_commands))]))
    else ret results in
  (* Determine overall success by checking all critical operations *)
  let* values := getitems results critical_steps in
  let* ok := all_status values in
  ret (<["success" := PBool ok]> results).

(** [results.update({...})] with the five Elementor fields. *)
Definition add_elementor_fields (results : report) : report :=
  <["kit_import" := PNone]>
  (<["kit_upload" := PNone]>
  (<["elementor_pro_installation" := PNone]>
  (<["elementor_pro_upload" := PNone]>
  (<["elementor_installation" := PNone]> results)))).

Definition deploy_wordpress_with_elementor (a : site)
    (elementor_pro_key elementor_pro_local_path kit_url kit_local_path : option string)
    (install_plugins : option (list string)) : M report :=
  (* Step 1: Deploy the basic WordPress site *)
  let* results :=
    deploy_wordpress a None
      (Some (if optlist_truthy install_plugins then default [] install_plugins else [])) in
  let* ok := getitem results "success" in
  if negb (truthy ok) then ret results else
  let results := add_elementor_fields results in
  (* Step 2: Install free Elementor plugin *)
  let* results := assign results "elementor_installation" (install_elementor (path a)) in
  (* Step 3: Handle Elementor Pro if provided *)
  let pro_wanted := opt_truthy elementor_pro_key && opt_truthy elementor_pro_local_path in
  let* results :=
    if pro_wanted then
      let server_pro_path := path a +:+ "/wp-content/uploads/elementor-pro.zip" in
      let* results := assign results "elementor_pro_upload"
                        (upload_elementor_pro_zip (default "" elementor_pro_local_path)
                           server_pro_path) in
      let* s := status_at results "elementor_pro_upload" in
      if truthy s
      then assign results "elementor_pro_installation"
             (install_elementor_pro (path a) elementor_pro_key (Some server_pro_path))
      else ret results
    else ret results in
  (* Step 4: Handle Elementor kit if provided *)
  let kit_server_path :=
    if opt_truthy kit_local_path
    then Some (path a +:+ "/wp-content/uploads/elementor-kit.zip")
    else None in
  let* results :=
    if opt_truthy kit_local_path
    then assign results "kit_upload"
           (upload_kit_file (default "" kit_local_path) (default "" kit_server_path))
    else ret results in
  (* Step 5: Import the kit if Elementor was installed successfully *)
  let* import_wanted :=
    if opt_truthy kit_url || opt_truthy kit_server_path
    then let* s := status_at results "elementor_installation" in ret (truthy s)
    else ret false in
  let* results :=
    if import_wanted : bool
    then assign results "kit_import" (import_elementor_kit (path a) kit_url kit_server_path)
    else ret results in
  (* Determine Elementor success by checking each Elementor-related operation *)
  let* elementor_success := status_at results "elementor_installation" in
  let* elementor_success :=
    if pro_wanted then
      let* up := status_at results "elementor_pro_upload" in
      let* pro_success :=
        if truthy up then status_at results "elementor_pro_installation" else ret up in
      ret (py_and elementor_success pro_success)
    else ret elementor_success in
  let* elementor_success :=
    if opt_truthy kit_url || opt_truthy kit_local_path then
      let* kit_success :=
        if opt_truthy kit_local_path then
          let* up := status_at results "kit_upload" in
          if truthy up then status_at results "kit_import" else ret up
        else status_at results "kit_import" in
      ret (py_and elementor_success kit_success)
    else ret elementor_success in
  (* Update the overall success flag to include Elementor operations *)
  let* ok := getitem results "success" in
  ret (<["success" := py_and ok elementor_success]> results).

End Deployer.

(** ** Concrete worlds and inputs, used to exercise the model *)

(** A 200 response to the request for [url] whose body decodes to [body]. *)
Definition responding (url : string) (body : pyval) : Response :=
  {| status_code := 200%Z; reason := "OK"; response_url := url; json_body := inr body |}.

Definition ok_body : pyval :=
  PDict [("status", PInt 1); ("errors", PNone); ("data", PNone)].

Definition failed_body : pyval :=
  PDict [("status", PInt 0); ("errors", PList [PStr "remote failure"]); ("data", PNone)].

Definition ok_response (url : string) : Response := responding url ok_body.

Definition failed_response (url : string) : Response := responding url failed_body.

(** Number of POST requests in a log. *)
Fixpoint posts_in (t : list event) : nat :=
  match t with
  | [] => 0
  | EPost _ _ _ :: rest => S (posts_in rest)
  | _ :: rest => posts_in rest
  end.

(** A world in which the POST requests numbered in [failing] (counting from
    zero) are answered with [status] 0 and all others with [status] 1; the
    salt service answers and local files are readable. *)
Definition world_failing (failing : list nat) : world :=
  {| requests_post := fun t url _ _ =>
       PostResponds (if existsb (Nat.eqb (posts_in t)) failing
                     then failed_response url else ok_response url);
     requests_get := fun _ _ => GetResponds "define('AUTH_KEY', 'k');";
     open_rb := fun _ _ => inr "PK";
     random_below := fun _ i _ => i |}.

Definition the_deployer : deployer :=
  init "example.com" "cpaneluser" "password" "secret" 2083%Z.

Definition the_site : site :=
  {| domain := "yourdomain.com"; path := "/home/username/public_html";
     db_name := "wordpress"; db_user := "wpuser"; db_password := "secure_password";
     site_title := "My WordPress Site"; admin_user := "admin";
     admin_password := "admin_password"; admin_email := "admin@example.com" |}.

(** A stand-in for the lost configuration text and command head, used only
    to run the model on concrete inputs. *)
Definition the_config_php (self : deployer) (path db_name db_user db_password db_host salts : string)
    : string :=
  "define('DB_NAME', '" +:+ username self +:+ "_" +:+ db_name +:+ "');" +:+ nl +:+ salts.

Definition the_cmd_head : string := "cat >".

(** A world whose control panel answers every POST with the response [r]. *)
Definition world_answering (r : Response) : world :=
  {| requests_post := fun _ _ _ _ => PostResponds r;
     requests_get := fun _ _ => GetResponds "define('AUTH_KEY', 'k');";
     open_rb := fun _ _ => inr "PK";
     random_below := fun _ i _ => i |}.

(** A world in which nothing can be reached: no control panel, no salt
    service, no local file. *)
Definition world_offline : world :=
  {| requests_post := fun _ _ _ _ => PostRaises (Caught (ConnectionError "Connection refused"));
     requests_get := fun _ _ => GetRaises "Connection refused";
     open_rb := fun _ _ => inl "No such file or directory";
     random_below := fun _ i _ => (i * 7)%nat |}.

Definition multiple_choices : Response :=
  {| status_code := 300%Z; reason := "Multiple Choices";
     response_url := "https://example.com:2083/execute/Mysql/create_database";
     json_body := inr ok_body |}.

(** A 404 whose [response.url] is not the URL that was requested. *)
Definition not_found_elsewhere : Response :=
  {| status_code := 404%Z; reason := "Not Found";
     response_url := "https://example.com:2083/login/";
     json_body := inr ok_body |}.

(** A world in which [requests.post] raises an exception that is not a
    [RequestException]: the credentials cannot be encoded as a header. *)
Definition world_unencodable : world :=
  {| requests_post := fun _ _ _ _ =>
       PostRaises (Escapes (OtherException "UnicodeEncodeError"
                              "'latin-1' codec can't encode character"));
     requests_get := fun _ _ => GetResponds "define('AUTH_KEY', 'k');";
     open_rb := fun _ _ => inr "PK";
     random_below := fun _ i _ => i |}.

(** A world like [world_failing []], except that the POST numbered [n] is
    answered with the JSON value [body]. *)
Definition world_answering_at (n : nat) (body : pyval) : world :=
  {| requests_post := fun t url _ _ =>
       PostResponds (responding url (if Nat.eqb (posts_in t) n then body else ok_body));
     requests_get := fun _ _ => GetResponds "define('AUTH_KEY', 'k');";
     open_rb := fun _ _ => inr "PK";
     random_below := fun _ i _ => i |}.

(** A world whose control panel answers every POST with the empty JSON
    object. *)
Definition world_empty_answers : world :=
  world_answering (responding "" (PDict [])).

(** ** The remote invoker: what counts as a captured failure *)

(** The description of the failure of a POST, when it is one that
    [make_api_request] turns into a failed result: a [RequestException]
    raised by the request, raised for a 4xx or 5xx status, or raised when
    the body is decoded. *)
Definition transport_failure (o : post_outcome) : option string :=
  match o with
  | PostRaises (Caught e) => Some (str_exc e)
  | PostRaises (Escapes _) => None
  | PostResponds r =>
      if (400 <=? status_code r)%Z && (status_code r <? 600)%Z then
        Some (pretty (status_code r)
              +:+ (if (status_code r <? 500)%Z then " Client Error: " else " Server Error: ")
              +:+ reason r +:+ " for url: " +:+ response_url r)
      else
        match json_body r with
        | inl (Caught e) => Some (str_exc e)
        | _ => None
        end
  end.

(** The exception that escapes [make_api_request], when one does: one that
    is not a [RequestException], raised by the request or when the body of
    a response whose status is not 4xx or 5xx is decoded. *)
Definition escaping (o : post_outcome) : option exn :=
  match o with
  | PostRaises (Escapes e) => Some e
  | PostRaises (Caught _) => None
  | PostResponds r =>
      if (400 <=? status_code r)%Z && (status_code r <? 600)%Z then None
      else
        match json_body r with
        | inl (Escapes e) => Some e
        | _ => None
        end
  end.

(** The body that [make_api_request] returns as it is, when it does: that
    of a response whose status is not 4xx or 5xx and whose body decodes. *)
Definition decoded (o : post_outcome) : option pyval :=
  match o with
  | PostRaises _ => None
  | PostResponds r =>
      if (400 <=? status_code r)%Z && (status_code r <? 600)%Z then None
      else
        match json_body r with
        | inr v => Some v
        | inl _ => None
        end
  end.

(** The failed result the invoker synthesises for a description. *)
Definition failed_call (description : string) : dict :=
  [("status", PInt 0); ("errors", PList [PStr description]); ("data", PNone)].

(** ** The fallback salts: the eight constants *)

Definition security_constants : list string :=
  ["AUTH_KEY"; "SECURE_AUTH_KEY"; "LOGGED_IN_KEY"; "NONCE_KEY";
   "AUTH_SALT"; "SECURE_AUTH_SALT"; "LOGGED_IN_SALT"; "NONCE_SALT"].

Fixpoint spaces (n : nat) : string :=
  match n with
  | O => ""
  | S n' => String " " (spaces n')
  end.

(** One [define] line of the salts block, values aligned in one column. *)
Definition define_line (name value : string) : string :=
  "define('" +:+ name +:+ "'," +:+ spaces (17 - String.length name) +:+ "'" +:+ value
    +:+ "');" +:+ nl.

(** A salts block that gives every constant of [names] the value [value]. *)
Definition salts_block (names : list string) (value : string) : string :=
  nl +:+ String.concat "" (map (fun name => define_line name value) names).

(** ** Vocabulary of the claims about the pipelines *)

Definition optional_steps : list string :=
  ["theme_installation"; "plugin_installation"].

(** The steps of [deploy_wordpress], in pipeline order. *)
Definition base_steps : list string := critical_steps ++ optional_steps.

(** The steps [deploy_wordpress_with_elementor] adds, in pipeline order. *)
Definition elementor_steps : list string :=
  ["elementor_installation"; "elementor_pro_upload"; "elementor_pro_installation";
   "kit_upload"; "kit_import"].

(** The steps that [deploy_wordpress_with_elementor] adds and whose result it
    reads whenever it has attempted them. *)
Definition elementor_steps_read : list string :=
  ["elementor_installation"; "elementor_pro_upload"; "elementor_pro_installation";
   "kit_upload"].

(** An outcome that a caller cannot read a status from: an exception, or a
    value that is not a dict. *)
Definition bad_outcome (o : outcome pyval) : Prop := forall d, o <> Returns (PDict d).

(** The log ends with a POST whose answer the caller cannot read a status
    from: an exception that escaped, or a body that is not a JSON object. *)
Definition bad_answer_last (w : world) (self : deployer) (t : list event) : Prop :=
  exists t1 url body,
    t = t1 ++ [EPost url (headers self) body] /\
    bad_outcome (api_result (requests_post w t1 url (headers self) body)).

(** Some POST of the log had such an answer. *)
Definition bad_answer_in_log (w : world) (self : deployer) (t : list event) : Prop :=
  exists t', t' `prefix_of` t /\ bad_answer_last w self t'.

(** An executor: whether it returns or raises, it only appends to the log
    and starts no step of its own; and when its outcome is an exception or
    a value that is not a dict, its last act was a POST and the outcome is
    what the answer to that POST comes to. *)
Definition executor_ok (w : world) (self : deployer) (m : M pyval) : Prop :=
  forall t, exists evs,
    snd (m t) = t ++ evs /\ steps_of evs = [] /\
    (bad_outcome (fst (m t)) -> bad_answer_last w self (t ++ evs)).

(** An executor that ends in one POST, whose answer decides its outcome. *)
Definition remote_call (w : world) (self : deployer) (m : M pyval) : Prop :=
  forall t, exists pre url body,
    m t = (api_result (requests_post w (t ++ pre) url (headers self) body),
           (t ++ pre) ++ [EPost url (headers self) body])
    /\ steps_of pre = [].

(** The log [t] ends with the POST that [res] is the answer to: no request
    was made after it. *)
Definition answered_last (w : world) (self : deployer) (t : list event) (res : dict) : Prop :=
  exists t1 url body,
    t = t1 ++ [EPost url (headers self) body] /\
    api_result (requests_post w t1 url (headers self) body) = Returns (PDict res).

(** The run stopped at the [i]-th critical step, whose result is [res]: the
    steps attempted are exactly the pipeline up to that step, its POST is the
    last request, every later step of the base pipeline is still null, and
    the report's success is false. *)
Definition halted_at (w : world) (self : deployer) (i : nat) (res : dict)
    (r : report) (t : list event) : Prop :=
  steps_of t = take (S i) critical_steps /\
  answered_last w self t res /\
  r !! "success" = Some (PBool false) /\
  forall j, j ∈ drop (S i) base_steps -> r !! j = Some PNone.

(** Every step of [steps] has an entry in the report, null when the step
    was never attempted. *)
Definition lists_steps (steps : list string) (r : report) (t : list event) : Prop :=
  forall k, k ∈ steps ->
    is_Some (r !! k) /\ (k ∉ steps_of t -> r !! k = Some PNone).

(** The entry of every step of [steps] that was attempted is a call result,
    a dict: for these steps, null means never attempted. *)
Definition records_results (steps : list string) (r : report) (t : list event) : Prop :=
  forall k, k ∈ steps -> k ∈ steps_of t -> exists d, r !! k = Some (PDict d).

(** [install_plugins or []], as [deploy_wordpress_with_elementor] passes it on. *)
Definition plugins_or_empty (install_plugins : option (list string)) : option (list string) :=
  Some (if optlist_truthy install_plugins then default [] install_plugins else []).

(** How a run of the base pipeline raises: on a POST whose answer cannot be
    read, having attempted steps of the base pipeline only. *)
Definition raised_in_base (w : world) (self : deployer) (e : exn) (t : list event) : Prop :=
  bad_answer_last w self t /\ forall k, k ∈ steps_of t -> k ∈ base_steps.


(** A control panel that answers the deployer's every request with a JSON
    object, or with a failure that [make_api_request] captures. *)
Definition answers_objects (w : world) (self : deployer) : Prop :=
  forall t url body,
    exists d, api_result (requests_post w t url (headers self) body) = Returns (PDict d).

(** ** Reasoning about computations *)

(** [sat m t Q E]: run from the log [t], [m] either returns a value and a log
    that satisfy [Q], or raises an exception and leaves a log that satisfy [E]. *)
Definition sat {A} (m : M A) (t : list event)
    (Q : A -> list event -> Prop) (E : exn -> list event -> Prop) : Prop :=
  match m t with
  | (Returns a, t') => Q a t'
  | (Raises e, t') => E e t'
  end.

(** No exception is allowed. *)
Definition never : exn -> list event -> Prop := fun _ _ => False.

(** Any exception is allowed. *)
Definition anyhow : exn -> list event -> Prop := fun _ _ => True.

(** The base pipeline has passed its first [n] critical steps: exactly these
    were attempted, each has a result with a truthy status, every later step
    is still null, and the report does not claim success yet. *)
Definition chain_state (n : nat) (r : report) (t : list event) : Prop :=
  steps_of t = take n critical_steps /\
  (forall j, j ∈ take n critical_steps ->
     exists d, r !! j = Some (PDict d) /\ truthy (status d) = true) /\
  (forall j, j ∈ drop n base_steps -> r !! j = Some PNone) /\
  r !! "success" = Some (PBool false) /\
  (forall j, j ∈ elementor_steps -> r !! j = None).

(** The base pipeline has just seen its [n]-th critical step [k] fail with
    the result [res]. *)
Definition halted_state (w : world) (self : deployer) (n : nat) (k : string) (res : dict)
    (r : report) (t : list event) : Prop :=
  critical_steps !! n = Some k /\
  r !! k = Some (PDict res) /\ truthy (status res) = false /\
  (forall j, j ∈ take n critical_steps ->
     exists d, r !! j = Some (PDict d) /\ truthy (status d) = true) /\
  (forall j, j ∈ elementor_steps -> r !! j = None) /\
  halted_at w self n res r t.

(** What every run of [deploy_wordpress] that returns establishes. *)
Definition base_facts (w : world) (self : deployer)
    (theme : option string) (plugins : option (list string))
    (r : report) (t : list event) : Prop :=
  (exists b, r !! "success" = Some (PBool b) /\
     (b = true <->
      forall k, k ∈ critical_steps ->
        exists d, r !! k = Some (PDict d) /\ truthy (status d) = true) /\
     (b = true ->
      steps_of t = critical_steps
                   ++ (if opt_truthy theme then ["theme_installation"] else [])
                   ++ (if optlist_truthy plugins then ["plugin_installation"] else []))) /\
  lists_steps base_steps r t /\
  records_results critical_steps r t /\
  (forall k, k ∈ elementor_steps -> r !! k = None) /\
  (forall k, k ∈ steps_of t -> k ∈ base_steps) /\
  (forall i k res, critical_steps !! i = Some k -> r !! k = Some (PDict res) ->
     truthy (status res) = false -> halted_at w self i res r t).

(** What a run of [deploy_wordpress_with_elementor] that returns establishes
    once its base pipeline, which returned [r0] and left the log [t0], has
    succeeded. *)
Definition ext_facts (r0 : report) (t0 : list event) (r : report) (t : list event) : Prop :=
  (forall k, k ∈ base_steps -> r !! k = r0 !! k) /\
  lists_steps elementor_steps r t /\
  records_results elementor_steps_read r t /\
  (forall k, k ∈ steps_of t -> (k ∈ steps_of t0) \/ (k ∈ elementor_steps)) /\
  (forall k, k ∈ steps_of t0 -> k ∈ steps_of t) /\
  ("elementor_installation" ∈ steps_of t) /\
  ("kit_import" ∈ steps_of t ->
   exists d, r !! "elementor_installation" = Some (PDict d) /\ truthy (status d) = true) /\
  (forall u, r !! "elementor_pro_upload" = Some (PDict u) -> truthy (status u) = false ->
     r !! "elementor_pro_installation" = Some PNone /\
     ("elementor_pro_installation" ∉ steps_of t) /\
     exists v, r !! "success" = Some v /\ truthy v = false).

(** ** Reports as stacks of updates *)

(** The report obtained from [r] by the updates [l], the last one first. *)
Fixpoint stack (l : list (string * pyval)) (r : report) : report :=
  match l with
  | [] => r
  | (k, v) :: l' => <[k := v]> (stack l' r)
  end.

(** The value the updates [l] give to [k], if one of them sets it. *)
Fixpoint assoc (k : string) (l : list (string * pyval)) : option pyval :=
  match l with
  | [] => None
  | (k', v) :: l' => if String.eqb k' k then Some v else assoc k l'
  end.

(** The report a run returned (the empty report if it raised). *)
Definition report_of (o : outcome report * list event) : report :=
  match fst o with
  | Returns r => r
  | Raises _ => ∅
  end.

(** ** Vocabulary of further properties *)

(** Whether the report records the step [k] as done: an entry that is a
    call result with a truthy status. *)
Definition entry_ok (r : report) (k : string) : bool :=
  match r !! k with
  | Some (PDict d) => truthy (status d)
  | _ => false
  end.

(** ** Traffic *)

(** The operations of the control panel that the program calls, as the
    part of the URL after [base_url]. *)
Definition endpoints : list string :=
  ["Mysql/create_database"; "Mysql/create_user"; "Mysql/set_privileges_on_database";
   "Execute/exec"; "Fileman/save_file_content"].

(** What the deployer [self] may do when it is handed the local files
    [files]: start a step; POST with its own headers to one of the
    endpoints under its base URL; GET the salt service; open one of the
    files. *)
Definition allowed (self : deployer) (files : list string) (e : event) : Prop :=
  match e with
  | EStep _ => True
  | EPost url h _ => h = headers self /\ exists ep, ep ∈ endpoints /\ url = base_url self +:+ ep
  | EGet url => url = salt_url
  | EOpen p => p ∈ files
  end.

(** A computation that leaves the log as it is, whether it returns or raises. *)
Definition silent {A} (m : M A) : Prop := forall t, snd (m t) = t.

(** An executor that only appends to the log, events that satisfy [P], no
    step among them, and between [lo] and one POST. *)
Definition sends (lo : nat) (P : event -> Prop) (m : M pyval) : Prop :=
  forall t, exists evs,
    snd (m t) = t ++ evs /\ Forall P evs /\ steps_of evs = [] /\
    lo <= posts_in evs <= 1.

(** A computation that only appends to the log, events that satisfy [P],
    whose steps are taken from [l] in the order of [l], each once at most,
    with at most one POST per step and at least [lo]. *)
Definition paced {A} (lo : nat) (P : event -> Prop) (l : list string) (m : M A) : Prop :=
  forall t, exists evs,
    snd (m t) = t ++ evs /\ Forall P evs /\ steps_of evs `sublist_of` l /\
    lo * length (steps_of evs) <= posts_in evs <= length (steps_of evs).

(** ** Fields of the report *)

(** [r] and [r0] have the same fields outside [keys]. *)
Definition agree (keys : list string) (r r0 : report) : Prop :=
  forall k, k ∉ keys -> r !! k = r0 !! k.

(** Whatever [m] returns agrees with [r0] outside [keys]. *)
Definition touches (keys : list string) (r0 : report) (m : M report) : Prop :=
  forall t r t', m t = (Returns r, t') -> agree keys r r0.

(** ** The verdict of the extended pipeline *)

(** The verdict on the Elementor steps, as the final aggregation of
    [deploy_wordpress_with_elementor] forms it from the inputs and the
    recorded results. *)
Definition elementor_verdict (r : report)
    (elementor_pro_key elementor_pro_local_path kit_url kit_local_path : option string) : bool :=
  entry_ok r "elementor_installation"
  && (if opt_truthy elementor_pro_key && opt_truthy elementor_pro_local_path
      then entry_ok r "elementor_pro_upload" && entry_ok r "elementor_pro_installation"
      else true)
  && (if opt_truthy kit_url || opt_truthy kit_local_path
      then (if opt_truthy kit_local_path then entry_ok r "kit_upload" else true)
           && entry_ok r "kit_import"
      else true).

(** What the [success] field of a returned report of the extended pipeline is. *)
Definition aggregated (elementor_pro_key elementor_pro_local_path kit_url kit_local_path :
                         option string) (r : report) : Prop :=
  exists v, r !! "success" = Some v /\
    truthy v = forallb (entry_ok r) critical_steps
               && elementor_verdict r elementor_pro_key elementor_pro_local_path kit_url
                    kit_local_path /\
    (forallb (entry_ok r) critical_steps = true ->
     exists k d, k ∈ elementor_steps /\ r !! k = Some (PDict d) /\ v = status d).

(** A way in which [deploy_wordpress_with_elementor] fails to return though
    every answer it read was a JSON object: the [AttributeError] of a [get]
    on [None], when a kit source was supplied, the import was never
    attempted, and the free Elementor install, whose result is [d], had
    failed. *)
Definition skipped_import_raise (w : world) (self : deployer) (a : site)
    (kit_url kit_local_path : option string) (e : exn) (t : list event) : Prop :=
  e = AttributeError "'NoneType' object has no attribute 'get'" /\
  opt_truthy kit_url || opt_truthy kit_local_path = true /\
  ("kit_import" ∉ steps_of t) /\
  exists t1 d t2,
    install_elementor w self (path a) (t1 ++ [EStep "elementor_installation"])
    = (Returns (PDict d), t2) /\
    t2 `prefix_of` t /\ truthy (status d) = false.

(** ** The database requests *)


(** * Proofs *)

#[local] Arguments String.append !_ _ : simpl nomatch.

(** ** Strings *)

Lemma append_assoc (a b c : string) : (a +:+ b) +:+ c = a +:+ b +:+ c.
Proof. induction a as [|x a IH]; simpl; [reflexivity | now rewrite IH]. Qed.

Lemma append_nonempty (a b : string) : b <> "" -> a +:+ b <> "".
Proof. destruct a; simpl; [auto | discriminate]. Qed.

Lemma length_append (a b : string) :
  String.length (a +:+ b) = (String.length a + String.length b)%nat.
Proof. induction a as [|x a IH]; simpl; [reflexivity | now rewrite IH]. Qed.

Lemma chars_append (a b : string) :
  list_ascii_of_string (a +:+ b) = list_ascii_of_string a ++ list_ascii_of_string b.
Proof. induction a as [|x a IH]; simpl; [reflexivity | now rewrite IH]. Qed.

Lemma get_in_range (s : string) (n : nat) :
  (n < String.length s)%nat ->
  exists c, String.get n s = Some c /\ In c (list_ascii_of_string s).
Proof.
  revert n. induction s as [|x s IH]; simpl; intros n Hn; [lia |].
  destruct n as [|n].
  - exists x. split; [reflexivity | now left].
  - destruct (IH n) as (c & Hc & Hin); [lia |].
    exists c. split; [assumption | now right].
Qed.

(** Joining one-character strings with the empty separator. *)
Lemma join_singletons (P : ascii -> Prop) (l : list string) :
  Forall (fun s => exists c, s = String c "" /\ P c) l ->
  String.length (join "" l) = length l /\
  Forall P (list_ascii_of_string (join "" l)).
Proof.
  induction 1 as [|s l (c & -> & Hc) _ (IHlen & IHall)]; simpl.
  - split; [reflexivity | constructor].
  - destruct l as [|s' l].
    + split; [reflexivity | repeat constructor; assumption].
    + split.
      * simpl in IHlen |- *. now rewrite IHlen.
      * constructor; assumption.
Qed.

(** ** Paths of uploaded files *)

Lemma rsplit_slash_append (a b h t : string) :
  rsplit_slash b = Some (h, t) -> rsplit_slash (a +:+ b) = Some (a +:+ h, t).
Proof.
  intros Hb. induction a as [|c a IH]; simpl; [exact Hb |]. now rewrite IH.
Qed.

Lemma all_slashes_append (a b : string) :
  all_slashes (a +:+ b) = all_slashes a && all_slashes b.
Proof.
  induction a as [|c a IH]; simpl; [reflexivity |]. now rewrite IH, andb_assoc.
Qed.

Lemma rstrip_slash_append (a b : string) :
  all_slashes b = false -> rstrip_slash (a +:+ b) = a +:+ rstrip_slash b.
Proof.
  intros Hb. induction a as [|c a IH]; [reflexivity |].
  change (String c a +:+ b) with (String c (a +:+ b)).
  cbn [rstrip_slash all_slashes]. rewrite all_slashes_append, Hb, andb_false_r, andb_false_r.
  now rewrite IH.
Qed.

(** The server path the extended pipeline builds for an upload splits, as
    [os.path] splits it, into the directory [{path}/wp-content/uploads] and
    the file name. *)
Lemma upload_path_splits (p : string) :
  dirname (p +:+ "/wp-content/uploads/elementor-kit.zip") = p +:+ "/wp-content/uploads" /\
  basename (p +:+ "/wp-content/uploads/elementor-kit.zip") = "elementor-kit.zip" /\
  dirname (p +:+ "/wp-content/uploads/elementor-pro.zip") = p +:+ "/wp-content/uploads" /\
  basename (p +:+ "/wp-content/uploads/elementor-pro.zip") = "elementor-pro.zip".
Proof.
  unfold dirname, basename.
  rewrite (rsplit_slash_append p "/wp-content/uploads/elementor-kit.zip"
             "/wp-content/uploads/" "elementor-kit.zip" eq_refl).
  rewrite (rsplit_slash_append p "/wp-content/uploads/elementor-pro.zip"
             "/wp-content/uploads/" "elementor-pro.zip" eq_refl).
  rewrite all_slashes_append, andb_false_r.
  rewrite (rstrip_slash_append p "/wp-content/uploads/" eq_refl).
  repeat split; reflexivity.
Qed.

(** ** The monad *)

Lemma bind_eq {A B} (m : M A) (k : A -> M B) t a t1 :
  m t = (Returns a, t1) -> bind m k t = k a t1.
Proof. unfold bind. now intros ->. Qed.

Lemma bind_raises {A B} (m : M A) (k : A -> M B) t e t1 :
  m t = (Raises e, t1) -> bind m k t = (Raises e, t1).
Proof. unfold bind. now intros ->. Qed.

Lemma bind_ret {A B} (a : A) (k : A -> M B) t : bind (ret a) k t = k a t.
Proof. reflexivity. Qed.

Lemma bind_assoc {A B C} (m : M A) (k1 : A -> M B) (k2 : B -> M C) t :
  bind (bind m k1) k2 t = bind m (fun x => bind (k1 x) k2) t.
Proof. unfold bind. destruct (m t) as [[a|e] t1]; reflexivity. Qed.

Lemma steps_of_app (t1 t2 : list event) :
  steps_of (t1 ++ t2) = steps_of t1 ++ steps_of t2.
Proof.
  induction t1 as [|e t1 IH]; simpl; [reflexivity |].
  destruct e; simpl; now rewrite IH.
Qed.

Lemma getitem_some (r : report) k v t : r !! k = Some v -> getitem r k t = (Returns v, t).
Proof. unfold getitem. now intros ->. Qed.

Lemma status_at_dict (r : report) k d t :
  r !! k = Some (PDict d) -> status_at r k t = (Returns (status d), t).
Proof. intros H. unfold status_at. now rewrite (bind_eq _ _ _ _ _ (getitem_some _ _ _ t H)). Qed.

Lemma status_at_none (r : report) k t :
  r !! k = Some PNone ->
  status_at r k t = (Raises (AttributeError "'NoneType' object has no attribute 'get'"), t).
Proof. intros H. unfold status_at. now rewrite (bind_eq _ _ _ _ _ (getitem_some _ _ _ t H)). Qed.

(** ** The remote invoker *)

Lemma transport_failure_result o description :
  transport_failure o = Some description ->
  api_result o = Returns (PDict (failed_call description)).
Proof.
  destruct o as [[e|e]|r]; simpl; try discriminate.
  - intros [= <-]. reflexivity.
  - unfold raise_for_status.
    destruct (400 <=? status_code r)%Z eqn:H4, (status_code r <? 500)%Z eqn:H5,
             (status_code r <? 600)%Z eqn:H6, (500 <=? status_code r)%Z eqn:H7;
      simpl; try lia; try (intros [= <-]; reflexivity);
      destruct (json_body r) as [[e|e]|v]; try discriminate; intros [= <-]; reflexivity.
Qed.

Lemma decoded_result o v : decoded o = Some v -> api_result o = Returns v.
Proof.
  destruct o as [[e|e]|r]; simpl; try discriminate.
  unfold raise_for_status.
  destruct (400 <=? status_code r)%Z eqn:H4, (status_code r <? 500)%Z eqn:H5,
           (status_code r <? 600)%Z eqn:H6, (500 <=? status_code r)%Z eqn:H7;
    simpl; try lia; try discriminate;
    destruct (json_body r) as [[e|e]|v']; try discriminate; intros [= <-]; reflexivity.
Qed.

Lemma escaping_result o e : api_result o = Raises e <-> escaping o = Some e.
Proof.
  destruct o as [[e'|e']|r]; simpl.
  - split; discriminate.
  - split; intros [= <-]; reflexivity.
  - unfold raise_for_status.
    destruct (400 <=? status_code r)%Z eqn:H4, (status_code r <? 500)%Z eqn:H5,
             (status_code r <? 600)%Z eqn:H6, (500 <=? status_code r)%Z eqn:H7;
      simpl; try lia; try (split; discriminate);
      destruct (json_body r) as [[e'|e']|v]; split; try discriminate;
      intros [= <-]; reflexivity.
Qed.

(** Every answer to a POST is of one of the three kinds. *)
Lemma answer_cases o :
  is_Some (transport_failure o) \/ is_Some (decoded o) \/ is_Some (escaping o).
Proof.
  destruct o as [[e|e] | r]; cbn [transport_failure decoded escaping]; eauto.
  destruct ((400 <=? status_code r)%Z && (status_code r <? 600)%Z); eauto.
  destruct (json_body r) as [[e|e] | v]; eauto.
Qed.

(** C2 (as amended).  [make_api_request] issues exactly one POST.  Every
    [RequestException] -- raised by the request, raised for a 4xx or 5xx
    status with a text that quotes the URL of the response, or raised when
    the body is decoded -- is captured, and the result is then exactly
    [{"status": 0, "errors": [description], "data": None}]: a falsy status,
    a one-element error list holding the description of the failure, and no
    data.  A response with any other status whose body decodes is returned
    as decoded, whatever JSON value it is.  The call raises exactly when the
    request, or the decoding of the body, raises an exception that is not a
    [RequestException]: that exception escapes.  Every answer is of one of
    these three kinds. *)
Theorem make_api_request_captures_failures
    (w : world) (self : deployer) (module function : string) (params : option dict)
    (t : list event) :
  let url := base_url self +:+ module +:+ "/" +:+ function in
  let body := match params with Some ((_ :: _) as p) => p | _ => [] end in
  let answer := requests_post w t url (headers self) body in
  snd (make_api_request w self module function params t) = t ++ [EPost url (headers self) body] /\
  (forall description,
      transport_failure answer = Some description ->
      fst (make_api_request w self module function params t)
      = Returns (PDict [("status", PInt 0); ("errors", PList [PStr description]);
                        ("data", PNone)]) /\
      truthy (status (failed_call description)) = false) /\
  (forall v,
      decoded answer = Some v ->
      fst (make_api_request w self module function params t) = Returns v) /\
  (forall e,
      fst (make_api_request w self module function params t) = Raises e <->
      escaping answer = Some e) /\
  (is_Some (transport_failure answer) \/ is_Some (decoded answer) \/ is_Some (escaping answer)).
Proof.
  intros url body answer. split; [reflexivity |].
  split; [| split; [| split]].
  - intros description H. split; [| reflexivity].
    exact (transport_failure_result _ _ H).
  - intros v H. exact (decoded_result _ _ H).
  - intros e. exact (escaping_result _ e).
  - exact (answer_cases answer).
Qed.

Lemma make_api_request_captures_failures_witness :
  run (make_api_request world_offline the_deployer "Mysql" "create_database" None)
  = (Returns (PDict [("status", PInt 0); ("errors", PList [PStr "Connection refused"]);
                     ("data", PNone)]),
     [EPost "https://example.com:2083/execute/Mysql/create_database"
        (headers the_deployer) []]) /\
  fst (run (make_api_request (world_answering not_found_elsewhere) the_deployer
              "Mysql" "create_database" None))
  = Returns (PDict [("status", PInt 0);
                    ("errors",
                     PList [PStr "404 Client Error: Not Found for url: https://example.com:2083/login/"]);
                    ("data", PNone)]).
Proof.
  split.
  - apply injective_projections.
    + exact (proj1 (proj1 (proj2 (make_api_request_captures_failures world_offline
                                    the_deployer "Mysql" "create_database" None []))
                      "Connection refused" eq_refl)).
    + reflexivity.
  - exact (proj1 (proj1 (proj2 (make_api_request_captures_failures
                                  (world_answering not_found_elsewhere) the_deployer
                                  "Mysql" "create_database" None []))
                    "404 Client Error: Not Found for url: https://example.com:2083/login/"
                    eq_refl)).
Defined.

(** C2, the counterexample.  A response whose status is outside 2xx but
    also outside 4xx/5xx (here 300) and whose body is JSON is not captured:
    the body is returned as it is, with its truthy status. *)
Lemma make_api_request_passes_status_300 :
  ~ (200 <= status_code multiple_choices < 300)%Z /\
  run (make_api_request (world_answering multiple_choices) the_deployer
         "Mysql" "create_database" None)
  = (Returns (PDict [("status", PInt 1); ("errors", PNone); ("data", PNone)]),
     [EPost "https://example.com:2083/execute/Mysql/create_database"
        (headers the_deployer) []]) /\
  truthy (status [("status", PInt 1); ("errors", PNone); ("data", PNone)]) = true.
Proof. split; [simpl; lia | split; reflexivity]. Qed.

(** [make_api_request] does raise: an exception of [requests.post] that is
    not a [RequestException] is not caught. *)
Lemma make_api_request_lets_other_exceptions_escape :
  run (make_api_request world_unencodable the_deployer "Mysql" "create_database" None)
  = (Raises (OtherException "UnicodeEncodeError" "'latin-1' codec can't encode character"),
     [EPost "https://example.com:2083/execute/Mysql/create_database"
        (headers the_deployer) []]).
Proof. reflexivity. Qed.

(** ** Inputs checked locally *)

(** C8.  [install_elementor_pro] without a license key or without a package
    path, and [import_elementor_kit] with neither a URL nor a file, return a
    failed result (status 0, one error message) and leave the log as it was:
    no request is sent. *)
Theorem missing_input_fails_locally
    (w : world) (self : deployer) (path : string)
    (license_key pro_zip_path kit_url kit_file : option string) (t : list event) :
  (opt_truthy license_key = false \/ opt_truthy pro_zip_path = false ->
   exists message,
     install_elementor_pro w self path license_key pro_zip_path t
     = (Returns (PDict [("status", PInt 0); ("errors", PList [PStr message])]), t)) /\
  (opt_truthy kit_url = false -> opt_truthy kit_file = false ->
   exists message,
     import_elementor_kit w self path kit_url kit_file t
     = (Returns (PDict [("status", PInt 0); ("errors", PList [PStr message])]), t)).
Proof.
  split.
  - intros H. unfold install_elementor_pro.
    destruct (opt_truthy license_key); simpl; [| eexists; reflexivity].
    destruct H as [H | ->]; [discriminate | simpl; eexists; reflexivity].
  - intros H1 H2. unfold import_elementor_kit. rewrite H1, H2. eexists. reflexivity.
Qed.

Lemma missing_input_fails_locally_witness :
  (exists message,
     install_elementor_pro world_offline the_deployer "/home/u/public_html"
       None (Some "/home/u/pro.zip") []
     = (Returns (PDict [("status", PInt 0); ("errors", PList [PStr message])]), [])) /\
  (exists message,
     import_elementor_kit world_offline the_deployer "/home/u/public_html" None (Some "") []
     = (Returns (PDict [("status", PInt 0); ("errors", PList [PStr message])]), [])).
Proof.
  pose proof (missing_input_fails_locally world_offline the_deployer "/home/u/public_html"
                None (Some "/home/u/pro.zip") None (Some "") []) as [H1 H2].
  split; [apply H1; left; reflexivity | apply H2; reflexivity].
Defined.

(** ** The fallback salts *)

Lemma fallback_salts_block (value : string) :
  fallback_salts value = salts_block security_constants value.
Proof.
  unfold fallback_salts, salts_block, define_line. simpl.
  rewrite !append_assoc. reflexivity.
Qed.

Lemma random_string_chars (w : world) (t : list event) :
  String.length (random_string w t) = 64%nat /\
  Forall (fun c => In c (list_ascii_of_string (ascii_letters +:+ digits +:+ punctuation)))
         (list_ascii_of_string (random_string w t)).
Proof.
  unfold random_string.
  set (chars := ascii_letters +:+ digits +:+ punctuation).
  assert (Hlen : String.length chars = 94%nat) by reflexivity.
  destruct (join_singletons (fun c => In c (list_ascii_of_string chars))
              (map (fun i => random_choice w t i chars) (seq 0 64))) as [Hl Hc].
  - apply List.Forall_forall. intros s Hs. apply List.in_map_iff in Hs as (i & <- & _).
    unfold random_choice.
    destruct (get_in_range chars (random_below w t i (String.length chars) mod String.length chars))
      as (c & -> & Hin).
    + rewrite Hlen. apply Nat.mod_upper_bound. discriminate.
    + exists c. split; [reflexivity | assumption].
  - split; [| exact Hc]. rewrite Hl, length_map, length_seq. reflexivity.
Qed.

(** The characters of a string joined from one-character strings. *)
Lemma get_join_singletons (l : list string) (i : nat) :
  Forall (fun s => exists c, s = String c "") l ->
  String.get i (join "" l) = match l !! i with Some s => String.get 0 s | None => None end.
Proof.
  intros H. revert i. induction H as [|s l (c & ->) _ IH]; intros i.
  - destruct i; reflexivity.
  - destruct l as [|s' l].
    + destruct i as [|[|i]]; reflexivity.
    + change (join "" (String c "" :: s' :: l)) with (String c (join "" (s' :: l))).
      destruct i as [|i]; [reflexivity |]. exact (IH i).
Qed.

Lemma random_choice_singleton (w : world) (t : list event) (i : nat) :
  let chars := ascii_letters +:+ digits +:+ punctuation in
  exists c, random_choice w t i chars = String c "" /\
            String.get (random_below w t i 94 mod 94) chars = Some c.
Proof.
  intros chars. unfold random_choice.
  change (String.length chars) with 94%nat.
  destruct (get_in_range chars (random_below w t i 94 mod 94)) as (c & Hc & _).
  - change (String.length chars) with 94%nat. apply Nat.mod_upper_bound. discriminate.
  - exists c. rewrite Hc. split; reflexivity.
Qed.

(** The [i]-th character of the random string is the character of the
    alphabet that the [i]-th draw picked. *)
Lemma random_string_draws (w : world) (t : list event) (i : nat) :
  (i < 64)%nat ->
  String.get i (random_string w t)
  = String.get (random_below w t i 94 mod 94) (ascii_letters +:+ digits +:+ punctuation).
Proof.
  intros Hi. unfold random_string.
  rewrite get_join_singletons.
  - rewrite list_lookup_fmap, lookup_seq_lt by exact Hi.
    cbn [fmap option_fmap option_map Nat.add].
    destruct (random_choice_singleton w t i) as (c & Hc & Hget).
    cbv zeta in Hc, Hget. rewrite Hc, Hget. reflexivity.
  - apply Forall_fmap, Forall_forall. intros j _. unfold compose.
    destruct (random_choice_singleton w t j) as (c & Hc & _).
    cbv zeta in Hc. exists c. exact Hc.
Qed.

(** C9.  When the request to the secret-key service raises, the salts are
    generated locally: one string of 64 characters, the [i]-th of which is
    the character that the [i]-th random draw picks among the 94 letters,
    digits and punctuation characters, and the block sent in the
    configuration command gives that same string to all eight constants,
    AUTH_KEY through NONCE_SALT. *)
Theorem unreachable_salt_service_reuses_one_key
    (w : world) (self : deployer)
    (wp_config_php : deployer -> string -> string -> string -> string -> string -> string -> string)
    (cmd_head path db_name db_user db_password db_host : string)
    (t : list event) (description : string) :
  requests_get w t salt_url = GetRaises description ->
  let key := random_string w (t ++ [EGet salt_url]) in
  fetch_salts w t = (Returns (salts_block security_constants key), t ++ [EGet salt_url]) /\
  create_wp_config w self wp_config_php cmd_head path db_name db_user db_password db_host t
  = make_api_request w self "Execute" "exec"
      (Some [("command",
              PStr (wp_config_cmd self wp_config_php cmd_head path db_name db_user db_password
                      db_host (salts_block security_constants key)))])
      (t ++ [EGet salt_url]) /\
  String.length key = 64%nat /\
  Forall (fun c => In c (list_ascii_of_string (ascii_letters +:+ digits +:+ punctuation)))
         (list_ascii_of_string key) /\
  (forall i, (i < 64)%nat ->
     String.get i key
     = String.get (random_below w (t ++ [EGet salt_url]) i 94 mod 94)
         (ascii_letters +:+ digits +:+ punctuation)) /\
  salts_block security_constants key
  = nl +:+ define_line "AUTH_KEY" key +:+ define_line "SECURE_AUTH_KEY" key
       +:+ define_line "LOGGED_IN_KEY" key +:+ define_line "NONCE_KEY" key
       +:+ define_line "AUTH_SALT" key +:+ define_line "SECURE_AUTH_SALT" key
       +:+ define_line "LOGGED_IN_SALT" key +:+ define_line "NONCE_SALT" key.
Proof.
  intros Hget key.
  assert (Hfetch : fetch_salts w t
                   = (Returns (salts_block security_constants key), t ++ [EGet salt_url])).
  { unfold fetch_salts. rewrite Hget, fallback_salts_block. reflexivity. }
  destruct (random_string_chars w (t ++ [EGet salt_url])) as [Hlen Hchars].
  split; [exact Hfetch |].
  split; [unfold create_wp_config; now rewrite (bind_eq _ _ _ _ _ Hfetch) |].
  split; [exact Hlen |].
  split; [exact Hchars |].
  split; [intros i Hi; exact (random_string_draws w (t ++ [EGet salt_url]) i Hi) |].
  unfold salts_block. simpl. reflexivity.
Qed.

Lemma unreachable_salt_service_reuses_one_key_witness :
  fetch_salts world_offline []
  = (Returns (salts_block security_constants
                (random_string world_offline [EGet salt_url])),
     [EGet salt_url]).
Proof.
  exact (proj1 (unreachable_salt_service_reuses_one_key world_offline the_deployer
                  the_config_php the_cmd_head "/home/u/public_html" "wordpress" "wpuser"
                  "secret" "localhost" [] "Connection refused" eq_refl)).
Defined.

(** ** Tactics for finite case analyses and lookups *)

Ltac in_cases H :=
  lazymatch type of H with
  | _ ∈ [] => apply elem_of_nil in H; destruct H
  | _ ∈ _ :: _ => apply elem_of_cons in H as [H | H]; [ | in_cases H ]
  end.

Ltac look :=
  repeat first [ rewrite lookup_insert_eq | rewrite lookup_insert_ne by discriminate ].

Ltac expand_forall H :=
  lazymatch type of H with
  | forall j, j ∈ [] -> _ => clear H
  | forall j, j ∈ (?a :: ?l) -> @?P j =>
      let Ha := fresh "F" in
      pose proof (H a (list_elem_of_here a l)) as Ha;
      let H' := fresh "G" in
      pose proof (fun j (Hj : j ∈ l) => H j (list_elem_of_further j a l Hj)) as H';
      clear H; cbv beta in Ha; expand_forall H'
  end.

Ltac open_facts :=
  repeat match goal with
         | H : exists _, _ /\ _ |- _ => destruct H as (? & ? & ?)
         end.

Ltac use_lookups :=
  look;
  repeat match goal with
         | H : ?r !! ?k = _ |- context [?r !! ?k] => rewrite H
         end.

Ltac use_lookups_in X :=
  repeat first [ rewrite lookup_insert_eq in X | rewrite lookup_insert_ne in X by discriminate ];
  repeat match goal with
         | H : ?r !! ?k = _ |- _ =>
             lazymatch H with
             | X => fail
             | _ => lazymatch type of X with context [r !! k] => rewrite H in X end
             end
         end.

Ltac not_in := let H := fresh in intros H; in_cases H; discriminate.

(** ** Executors *)

Lemma bad_outcome_raises e : bad_outcome (Raises e).
Proof. intros d. discriminate. Qed.

Lemma bad_outcome_returns v : (forall d, v <> PDict d) -> bad_outcome (Returns v).
Proof. intros H d [= ->]. exact (H d eq_refl). Qed.

Lemma bad_answer_last_in_log (w : world) (self : deployer) t t' :
  bad_answer_last w self t -> t `prefix_of` t' -> bad_answer_in_log w self t'.
Proof. intros H Hp. exists t. split; assumption. Qed.

Lemma bad_answer_in_log_mono (w : world) (self : deployer) t t' :
  bad_answer_in_log w self t -> t `prefix_of` t' -> bad_answer_in_log w self t'.
Proof. intros (t1 & Hp1 & H) Hp. exists t1. split; [now transitivity t | exact H]. Qed.

Lemma answers_objects_last (w : world) (self : deployer) t :
  answers_objects w self -> bad_answer_last w self t -> False.
Proof.
  intros Hw (t1 & url & body & _ & Hbad).
  destruct (Hw t1 url body) as (d & Hd). exact (Hbad d Hd).
Qed.

Lemma answers_objects_in_log (w : world) (self : deployer) t :
  answers_objects w self -> bad_answer_in_log w self t -> False.
Proof. intros Hw (t' & _ & H). exact (answers_objects_last w self t' Hw H). Qed.

Section Pipelines.

Variable w : world.
Variable self : deployer.
Variable wp_config_php :
  deployer -> string -> string -> string -> string -> string -> string -> string.
Variable cmd_head : string.

Lemma make_api_request_remote module function params :
  remote_call w self (make_api_request w self module function params).
Proof.
  intros t. exists [], (base_url self +:+ module +:+ "/" +:+ function),
    (match params with Some ((_ :: _) as p) => p | _ => [] end).
  rewrite app_nil_r. split; reflexivity.
Qed.

Lemma remote_executor_ok m : remote_call w self m -> executor_ok w self m.
Proof.
  intros H t. destruct (H t) as (pre & url & body & E & Hpre).
  exists (pre ++ [EPost url (headers self) body]).
  rewrite E, app_assoc, steps_of_app, Hpre. cbn [fst snd].
  split; [reflexivity |]. split; [reflexivity |].
  intros Hbad. exists (t ++ pre), url, body. split; [reflexivity | exact Hbad].
Qed.

Lemma create_database_remote db charset :
  remote_call w self (create_database w self db charset).
Proof. apply make_api_request_remote. Qed.

Lemma create_db_user_remote user password :
  remote_call w self (create_db_user w self user password).
Proof. apply make_api_request_remote. Qed.

Lemma assign_user_to_db_remote db user privileges :
  remote_call w self (assign_user_to_db w self db user privileges).
Proof. apply make_api_request_remote. Qed.

Lemma download_wordpress_remote p : remote_call w self (download_wordpress w self p).
Proof. apply make_api_request_remote. Qed.

Lemma create_wp_config_remote p db user password host :
  remote_call w self (create_wp_config w self wp_config_php cmd_head p db user password host).
Proof.
  intros t. unfold create_wp_config.
  assert (exists salts, fetch_salts w t = (Returns salts, t ++ [EGet salt_url]))
    as [salts E].
  { unfold fetch_salts. destruct (requests_get w t salt_url); eexists; reflexivity. }
  rewrite (bind_eq _ _ _ _ _ E).
  exists [EGet salt_url]. eexists _, _. split; reflexivity.
Qed.

Lemma set_file_permissions_remote p : remote_call w self (set_file_permissions w self p).
Proof. apply make_api_request_remote. Qed.

Lemma run_wp_installation_remote p url title user password email :
  remote_call w self (run_wp_installation w self p url title user password email).
Proof. apply make_api_request_remote. Qed.

Lemma install_elementor_remote p : remote_call w self (install_elementor w self p).
Proof. apply make_api_request_remote. Qed.

Lemma make_api_request_ok module function params :
  executor_ok w self (make_api_request w self module function params).
Proof. apply remote_executor_ok, make_api_request_remote. Qed.

Lemma ret_ok d : executor_ok w self (ret (PDict d)).
Proof.
  intros t. exists []. rewrite app_nil_r. cbn [ret fst snd steps_of].
  split; [reflexivity |]. split; [reflexivity |].
  intros Hbad. destruct (Hbad d eq_refl).
Qed.

Lemma install_elementor_pro_ok p key zip :
  executor_ok w self (install_elementor_pro w self p key zip).
Proof.
  unfold install_elementor_pro.
  destruct (opt_truthy key), (opt_truthy zip); simpl;
    auto using ret_ok, make_api_request_ok.
Qed.

Lemma import_elementor_kit_ok p url file :
  executor_ok w self (import_elementor_kit w self p url file).
Proof.
  unfold import_elementor_kit.
  destruct (opt_truthy url), (opt_truthy file); auto using ret_ok, make_api_request_ok.
Qed.

Lemma upload_ok (on_error : string -> dict) (local_path server_path : string) :
  executor_ok w self
    (let* content := read_base64 w local_path in
     match content with
     | inl e => ret (PDict (on_error e))
     | inr file_content_base64 =>
         make_api_request w self "Fileman" "save_file_content"
           (Some [("dir", PStr (dirname server_path)); ("file", PStr (basename server_path));
                  ("content", PStr file_content_base64)])
     end).
Proof.
  intros t. unfold bind, read_base64.
  destruct (open_rb w t local_path) as [e|content].
  - exists [EOpen local_path]. cbn [ret fst snd steps_of].
    split; [reflexivity |]. split; [reflexivity |].
    intros Hbad. destruct (Hbad (on_error e) eq_refl).
  - destruct (make_api_request_ok "Fileman" "save_file_content"
                (Some [("dir", PStr (dirname server_path));
                       ("file", PStr (basename server_path));
                       ("content", PStr (b64encode content))])
                (t ++ [EOpen local_path])) as (evs & E & Hevs & Hbad).
    exists (EOpen local_path :: evs).
    change (t ++ EOpen local_path :: evs) with (t ++ [EOpen local_path] ++ evs).
    rewrite app_assoc. split; [exact E |]. split; [exact Hevs | exact Hbad].
Qed.

Lemma upload_kit_file_ok local_path server_path :
  executor_ok w self (upload_kit_file w self local_path server_path).
Proof. apply upload_ok. Qed.

Lemma upload_elementor_pro_zip_ok local_path server_path :
  executor_ok w self (upload_elementor_pro_zip w self local_path server_path).
Proof. apply upload_ok. Qed.

(** ** Rules for [sat] *)

Lemma sat_ret {A} (a : A) t (Q : A -> list event -> Prop) E : Q a t -> sat (ret a) t Q E.
Proof. exact (fun H => H). Qed.

Lemma sat_bind {A B} (m : M A) (k : A -> M B) t Q E :
  sat m t (fun a t' => sat (k a) t' Q E) E -> sat (bind m k) t Q E.
Proof. unfold sat, bind. destruct (m t) as [[a|e] t']; auto. Qed.

Lemma sat_returns {A} (m : M A) t Q E a t' :
  sat m t Q E -> m t = (Returns a, t') -> Q a t'.
Proof. unfold sat. intros H Heq. now rewrite Heq in H. Qed.

Lemma sat_raises {A} (m : M A) t Q E e t' :
  sat m t Q E -> m t = (Raises e, t') -> E e t'.
Proof. unfold sat. intros H Heq. now rewrite Heq in H. Qed.

Lemma sat_total {A} (m : M A) t (Q : A -> list event -> Prop) :
  sat m t Q never -> exists a t', m t = (Returns a, t') /\ Q a t'.
Proof. unfold sat, never. destruct (m t) as [[a|e] t']; [eauto | contradiction]. Qed.

Lemma sat_weaken {A} (m : M A) t (Q Q' : A -> list event -> Prop) (E E' : exn -> list event -> Prop) :
  sat m t Q E -> (forall a t', Q a t' -> Q' a t') -> (forall e t', E e t' -> E' e t') ->
  sat m t Q' E'.
Proof. unfold sat. destruct (m t) as [[a|e] t']; auto. Qed.

Lemma sat_if {A} (c : bool) (m1 m2 : M A) t Q E :
  (c = true -> sat m1 t Q E) -> (c = false -> sat m2 t Q E) ->
  sat (if c then m1 else m2) t Q E.
Proof. destruct c; auto. Qed.

Lemma sat_getitem (r : report) k v t Q E :
  r !! k = Some v -> Q v t -> sat (getitem r k) t Q E.
Proof. intros H HQ. unfold sat. now rewrite (getitem_some _ _ _ _ H). Qed.

Lemma sat_status_at (r : report) k d t Q E :
  r !! k = Some (PDict d) -> Q (status d) t -> sat (status_at r k) t Q E.
Proof. intros H HQ. unfold sat. now rewrite (status_at_dict _ _ _ _ H). Qed.

Lemma sat_status_at_none (r : report) k t (Q : pyval -> list event -> Prop) (E : exn -> list event -> Prop) :
  r !! k = Some PNone ->
  E (AttributeError "'NoneType' object has no attribute 'get'") t ->
  sat (status_at r k) t Q E.
Proof. intros H HE. unfold sat. now rewrite (status_at_none _ _ _ H). Qed.

(** Reading the status of a value of which nothing is known: either it is a
    dict, or the read raises. *)
Lemma sat_status_at_any (r : report) k v t (Q : pyval -> list event -> Prop)
    (E : exn -> list event -> Prop) :
  r !! k = Some v ->
  (forall d, v = PDict d -> Q (status d) t) ->
  ((forall d, v <> PDict d) -> forall e, E e t) ->
  sat (status_at r k) t Q E.
Proof.
  intros H HQ HE. unfold sat, status_at.
  rewrite (bind_eq _ _ _ _ _ (getitem_some _ _ _ t H)).
  destruct v; cbn [py_get raise ret]; first [ now apply HQ | apply HE; intros d; discriminate ].
Qed.

Lemma steps_after_assign (t evs : list event) k :
  steps_of evs = [] -> steps_of ((t ++ [EStep k]) ++ evs) = steps_of t ++ [k].
Proof. intros H. rewrite !steps_of_app, H. simpl. now rewrite app_nil_r. Qed.

(** An assignment [results[k] = m]: the step is logged, then the executor
    runs.  If it raises, its last act was a POST with an answer that cannot
    be read; if it returns a value that is not a dict, likewise. *)
Lemma sat_assign (r : report) k m t Q E :
  executor_ok w self m ->
  (forall e t', m (t ++ [EStep k]) = (Raises e, t') -> steps_of t' = steps_of t ++ [k] ->
                t `prefix_of` t' -> bad_answer_last w self t' -> E e t') ->
  (forall v t', m (t ++ [EStep k]) = (Returns v, t') -> steps_of t' = steps_of t ++ [k] ->
                t `prefix_of` t' -> ((forall d, v <> PDict d) -> bad_answer_last w self t') ->
                Q (<[k := v]> r) t') ->
  sat (assign r k m) t Q E.
Proof.
  intros Hm HE HQ. destruct (Hm (t ++ [EStep k])) as (evs & Eq & Hevs & Hbad).
  assert (Hp : t `prefix_of` (t ++ [EStep k]) ++ evs)
    by (rewrite <- app_assoc; now apply prefix_app_r).
  unfold sat, assign, bind, log.
  destruct (m (t ++ [EStep k])) as [[v|e] t'] eqn:Hrun; cbn [fst snd] in Eq, Hbad; subst t'.
  - apply HQ; [reflexivity | now apply steps_after_assign | exact Hp |].
    intros Hnd. apply Hbad. now apply bad_outcome_returns.
  - apply HE; [reflexivity | now apply steps_after_assign | exact Hp |].
    apply Hbad, bad_outcome_raises.
Qed.

Lemma assign_remote (r : report) k m t :
  remote_call w self m ->
  exists pre url body,
    assign r k m t
    = (match api_result (requests_post w ((t ++ [EStep k]) ++ pre) url (headers self) body) with
       | Returns v => Returns (<[k := v]> r)
       | Raises e => Raises e
       end,
       ((t ++ [EStep k]) ++ pre) ++ [EPost url (headers self) body])
    /\ steps_of pre = [].
Proof.
  intros H. destruct (H (t ++ [EStep k])) as (pre & url & body & E & Hpre).
  exists pre, url, body. unfold assign, bind, log. rewrite E.
  split; [| exact Hpre].
  destruct (api_result (requests_post w ((t ++ [EStep k]) ++ pre) url (headers self) body));
    reflexivity.
Qed.

(** A critical step: the assignment, then the early return on a falsy
    status.  Either the answer could not be read, or the step failed and the
    pipeline halted, or the pipeline goes on from the next state. *)
Lemma mandatory_rule (n : nat) k (r : report) m (rest : report -> M report) t Q
    (E : exn -> list event -> Prop) :
  critical_steps !! n = Some k -> remote_call w self m -> chain_state n r t ->
  (forall e t', bad_answer_last w self t' -> steps_of t' = take (S n) critical_steps ->
                E e t') ->
  (forall res r' t', halted_state w self n k res r' t' -> Q r' t') ->
  (forall r' t', chain_state (S n) r' t' -> sat (rest r') t' Q E) ->
  sat (let* results := assign r k m in
       let* s := status_at results k in
       if negb (truthy s) then ret results else rest results) t Q E.
Proof.
  intros Hk Hm (Hsteps & Hdone & Htodo & Hsucc & Hel) Hbad Hhalt Hcont.
  destruct (assign_remote r k m t Hm) as (pre & url & body & Eq & Hpre).
  set (t1 := (t ++ [EStep k]) ++ pre) in *.
  set (t' := t1 ++ [EPost url (headers self) body]) in *.
  assert (Ht' : steps_of t' = steps_of t ++ [k]).
  { unfold t', t1. rewrite !steps_of_app, Hpre. simpl. now rewrite !app_nil_r. }
  assert (Hnext : steps_of t' = take (S n) critical_steps).
  { rewrite Ht', Hsteps. clear -Hk.
    destruct n as [|[|[|[|[|[|[|n]]]]]]]; simpl in Hk; try discriminate Hk;
      injection Hk as <-; reflexivity. }
  apply sat_bind. unfold sat at 1. rewrite Eq.
  destruct (api_result (requests_post w t1 url (headers self) body)) as [v|e] eqn:Hans.
  2:{ apply Hbad; [| exact Hnext]. exists t1, url, body. split; [reflexivity |].
      rewrite Hans. apply bad_outcome_raises. }
  apply sat_bind. eapply sat_status_at_any; [apply lookup_insert_eq | |].
  2:{ intros Hnd e. apply Hbad; [| exact Hnext]. exists t1, url, body.
      split; [reflexivity |]. rewrite Hans. now apply bad_outcome_returns. }
  clear Hnext.
  intros d ->.
  assert (Hlast : answered_last w self t' d) by (exists t1, url, body; split; [reflexivity | exact Hans]).
  clear Eq Hans. clearbody t'. clear t1 Hpre.
  destruct (truthy (status d)) eqn:Hd; cbn [negb].
  - apply Hcont. unfold chain_state.
    destruct n as [|[|[|[|[|[|[|n]]]]]]]; simpl in Hk; try discriminate Hk;
      injection Hk as <-; unfold base_steps, critical_steps, optional_steps, elementor_steps in *;
      cbn [take drop app] in *.
    all: repeat split; [ now rewrite Ht', Hsteps | | | | ].
    all: try (intros j Hj; in_cases Hj; subst j; look; eauto;
              first [ apply Hdone | apply Htodo | apply Hel ]; repeat constructor).
    all: look; assumption.
  - apply sat_ret, (Hhalt d). unfold halted_state, halted_at.
    destruct n as [|[|[|[|[|[|[|n]]]]]]]; simpl in Hk; try discriminate Hk;
      injection Hk as <-; unfold base_steps, critical_steps, optional_steps, elementor_steps in *;
      cbn [take drop app] in *.
    all: repeat split; try reflexivity; try assumption; try apply lookup_insert_eq; try (now rewrite Ht', Hsteps).
    all: try (intros j Hj; in_cases Hj; subst j; look; eauto;
              first [ apply Hdone | apply Htodo | apply Hel ]; repeat constructor).
    all: look; assumption.
Qed.

Lemma base_facts_of_halted theme plugins n k res r t :
  halted_state w self n k res r t -> base_facts w self theme plugins r t.
Proof.
  intros (Hk & Hres & Hfalse & Hdone & Hel & Hsteps & Hlast & Hsucc & Htodo).
  unfold base_facts, lists_steps, records_results.
  destruct n as [|[|[|[|[|[|[|n]]]]]]]; simpl in Hk; try discriminate Hk;
    injection Hk as <-;
    unfold base_steps, critical_steps, optional_steps, elementor_steps in *;
    cbn [take drop app] in *.
  all: expand_forall Hdone; expand_forall Htodo; open_facts.
  all: split; [exists false; split; [assumption | split; [split; [discriminate | intros Hall] | discriminate]] |].
  all: try (expand_forall Hall; open_facts; congruence).
  all: split; [intros j Hj; in_cases Hj; subst j; use_lookups; (split; [eauto |]); rewrite Hsteps;
               first [ reflexivity | intros Hn; exfalso; apply Hn; repeat constructor ] |].
  all: split; [rewrite Hsteps; intros j Hj Hin; in_cases Hj; subst j; use_lookups; eauto;
               in_cases Hin; discriminate |].
  all: split; [assumption |].
  all: split; [rewrite Hsteps; intros j Hj; in_cases Hj; subst j; repeat constructor |].
  all: intros i k' res' Hi Hk' Hf';
       destruct i as [|[|[|[|[|[|[|i]]]]]]]; simpl in Hi; try discriminate Hi;
       injection Hi as <-; use_lookups_in Hk'; try discriminate Hk';
       injection Hk' as <-; try congruence.
  all: unfold halted_at; cbn [take drop app]; repeat split; try assumption.
  all: intros j Hj; unfold base_steps, critical_steps, optional_steps in Hj;
       cbn [take drop app] in Hj; in_cases Hj; subst j; assumption.
Qed.

Create HintDb remotes.
Create HintDb executors.
#[local] Hint Resolve create_database_remote create_db_user_remote assign_user_to_db_remote
  download_wordpress_remote create_wp_config_remote set_file_permissions_remote
  run_wp_installation_remote install_elementor_remote make_api_request_remote : remotes.
#[local] Hint Resolve install_elementor_pro_ok import_elementor_kit_ok upload_kit_file_ok
  upload_elementor_pro_zip_ok make_api_request_ok : executors.

Lemma initial_chain_state domain : chain_state 0 (initial_results domain) [].
Proof.
  unfold chain_state, initial_results, base_steps, critical_steps, optional_steps,
    elementor_steps.
  cbn [take drop app steps_of].
  split; [reflexivity |].
  split; [intros j Hj; in_cases Hj |].
  split; [intros j Hj; in_cases Hj; subst j; look; reflexivity |].
  split; [look; reflexivity |].
  intros j Hj; in_cases Hj; subst j; look; apply lookup_empty.
Qed.

#[local] Hint Resolve remote_executor_ok : executors.
#[local] Hint Resolve install_elementor_remote : executors.

(** One step of symbolic execution of a [sat] goal.  The goals it leaves
    that are not [sat] goals are those of the exceptions. *)
Ltac sat_step :=
  cbv beta;
  lazymatch goal with
  | |- sat (bind _ _) _ _ _ => apply sat_bind
  | |- sat (ret _) _ _ _ => apply sat_ret
  | |- sat (if negb ?c then _ else _) _ _ _ =>
      first [ match goal with Hc : c = _ |- _ => rewrite Hc end | destruct c eqn:? ];
      cbn [negb]
  | |- sat (if ?c then _ else _) _ _ _ =>
      first [ match goal with Hc : c = _ |- _ => rewrite Hc end | destruct c eqn:? ]
  | |- sat (assign _ ?k _) _ _ _ =>
      apply sat_assign;
      [ first [ solve [eauto with executors]
              | apply remote_executor_ok; solve [eauto with remotes] ]
      | intros ? ? ? ? ? ?
      | intros ? ? ? ? ? ? ]
  | |- sat (status_at _ _) _ _ _ =>
      first [ eapply sat_status_at; [use_lookups; reflexivity |]
            | eapply sat_status_at_none; [use_lookups; reflexivity |]
            | eapply sat_status_at_any; [use_lookups; reflexivity | intros ? -> | intros ? ?] ]
  | |- sat (getitem _ _) _ _ _ => eapply sat_getitem; [use_lookups; reflexivity |]
  | |- sat (getitems _ _) _ _ _ => cbn [getitems critical_steps]
  | |- sat (all_status _) _ _ _ => cbn [all_status]
  | |- sat (py_get (PDict ?d) "status" (PInt 0%Z)) _ _ _ =>
      change (py_get (PDict d) "status" (PInt 0%Z)) with (@ret pyval (status d))
  end.

(** The goal of an exception raised on an answer that cannot be read, at
    the very log at which the answer came. *)
Ltac bad_last :=
  first
    [ eassumption
    | match goal with
      | Hb : (forall d, ?v <> PDict d) -> bad_answer_last _ _ _,
        Hnd : forall d, ?v <> PDict d |- bad_answer_last _ _ _ => exact (Hb Hnd)
      end ].

Lemma raised_at_critical_step n e t :
  bad_answer_last w self t -> steps_of t = take n critical_steps -> raised_in_base w self e t.
Proof.
  intros Hb Hs. split; [exact Hb |]. rewrite Hs. intros k Hk.
  apply elem_of_app. left. exact (subseteq_take n critical_steps k Hk).
Qed.

Lemma deploy_wordpress_sat a theme plugins :
  sat (deploy_wordpress w self wp_config_php cmd_head a theme plugins) []
      (base_facts w self theme plugins) (raised_in_base w self).
Proof.
  unfold deploy_wordpress.
  pose proof (initial_chain_state (domain a)) as H0.
  pose proof (base_facts_of_halted theme plugins) as Hhalt.
  pose proof raised_at_critical_step as Hraise.
  eapply (mandatory_rule 0); [reflexivity | eauto with remotes | exact H0 | intros; eapply Hraise; eassumption | intros; eapply Hhalt; eassumption |].
  clear H0; intros r1 t1 H1.
  eapply (mandatory_rule 1); [reflexivity | eauto with remotes | exact H1 | intros; eapply Hraise; eassumption | intros; eapply Hhalt; eassumption |].
  clear H1; intros r2 t2 H2.
  eapply (mandatory_rule 2); [reflexivity | eauto with remotes | exact H2 | intros; eapply Hraise; eassumption | intros; eapply Hhalt; eassumption |].
  clear H2; intros r3 t3 H3.
  eapply (mandatory_rule 3); [reflexivity | eauto with remotes | exact H3 | intros; eapply Hraise; eassumption | intros; eapply Hhalt; eassumption |].
  clear H3; intros r4 t4 H4.
  eapply (mandatory_rule 4); [reflexivity | eauto with remotes | exact H4 | intros; eapply Hraise; eassumption | intros; eapply Hhalt; eassumption |].
  clear H4; intros r5 t5 H5.
  eapply (mandatory_rule 5); [reflexivity | eauto with remotes | exact H5 | intros; eapply Hraise; eassumption | intros; eapply Hhalt; eassumption |].
  clear H5; intros r6 t6 H6.
  eapply (mandatory_rule 6); [reflexivity | eauto with remotes | exact H6 | intros; eapply Hraise; eassumption | intros; eapply Hhalt; eassumption |].
  clear H6 Hhalt Hraise; intros r t (Hsteps & Hdone & Htodo & Hsucc & Hel).
  unfold base_steps, critical_steps, optional_steps, elementor_steps in *;
    cbn [take drop app] in *.
  expand_forall Hdone. expand_forall Htodo. open_facts.
  repeat sat_step.
  all: try (split; [bad_last |]; intros k;
            repeat match goal with Hs : steps_of _ = _ |- _ => rewrite Hs; clear Hs end;
            cbn [app]; unfold base_steps, critical_steps, optional_steps; cbn [app];
            intros Hk; in_cases Hk; subst k; repeat constructor).
  all: unfold base_facts, lists_steps, records_results, base_steps, critical_steps,
         optional_steps, elementor_steps.
  all: repeat match goal with Hs : steps_of _ = _ |- _ => rewrite Hs; clear Hs end.
  all: repeat match goal with Hc : opt_truthy _ = _ |- _ => rewrite Hc end.
  all: repeat match goal with Hc : optlist_truthy _ = _ |- _ => rewrite Hc end.
  all: cbn [app].
  all: split;
    [ exists true; split; [look; reflexivity |];
      split; [split; [intros _ k Hk; in_cases Hk; subst k; use_lookups; eauto | reflexivity]
             | reflexivity ] |].
  all: split;
    [ intros k Hk; in_cases Hk; subst k; use_lookups; (split; [eauto |]);
      first [ reflexivity | intros Hn; exfalso; apply Hn; repeat constructor ] |].
  all: split; [intros k Hk _; in_cases Hk; subst k; use_lookups; eauto |].
  all: split; [intros k Hk; in_cases Hk; subst k; look; apply Hel; repeat constructor |].
  all: split; [intros k Hk; in_cases Hk; subst k; repeat constructor |].
  all: intros i k res Hi Hk Hf;
       destruct i as [|[|[|[|[|[|[|i]]]]]]]; simpl in Hi; try discriminate Hi;
       injection Hi as <-; use_lookups_in Hk; injection Hk as <-; congruence.
Qed.

(** Every run of the base pipeline that returns establishes the facts. *)
Lemma deploy_wordpress_returns a theme plugins r t :
  run (deploy_wordpress w self wp_config_php cmd_head a theme plugins) = (Returns r, t) ->
  base_facts w self theme plugins r t.
Proof. exact (sat_returns _ _ _ _ _ _ (deploy_wordpress_sat a theme plugins)). Qed.

(** Against a control panel that answers with JSON objects the base
    pipeline returns. *)
Lemma deploy_wordpress_facts a theme plugins :
  answers_objects w self ->
  exists r t,
    run (deploy_wordpress w self wp_config_php cmd_head a theme plugins) = (Returns r, t)
    /\ base_facts w self theme plugins r t.
Proof.
  intros Hw. refine (sat_total _ [] _ _).
  eapply sat_weaken; [apply deploy_wordpress_sat | auto |].
  intros e t [H _]. exact (answers_objects_last w self t Hw H).
Qed.

Lemma server_path_truthy (p tail : string) :
  tail <> "" -> opt_truthy (Some (p +:+ tail)) = true.
Proof.
  intros H. unfold opt_truthy.
  destruct (String.eqb_spec (p +:+ tail) ""); [| reflexivity].
  exfalso. now apply (append_nonempty p tail H).
Qed.

Lemma truthy_py_and (x y : pyval) : truthy (py_and x y) = truthy x && truthy y.
Proof. unfold py_and. destruct (truthy x) eqn:H; [reflexivity | exact H]. Qed.

Ltac norm_log :=
  repeat match goal with Hs : steps_of _ = steps_of _ ++ _ |- _ => rewrite Hs; clear Hs end;
  rewrite <- ?app_assoc; cbn [app].

Ltac falsy :=
  rewrite ?truthy_py_and;
  repeat match goal with Ht : truthy _ = _ |- _ => rewrite Ht end;
  cbn [truthy andb];
  repeat match goal with |- context [truthy ?x] => destruct (truthy x) end;
  reflexivity.

Lemma stack_lookup l (r : report) k :
  stack l r !! k = match assoc k l with Some v => Some v | None => r !! k end.
Proof.
  induction l as [|[k' v] l IH]; simpl; [reflexivity |].
  destruct (String.eqb_spec k' k) as [-> | Hne].
  - apply lookup_insert_eq.
  - rewrite lookup_insert_ne by exact Hne. exact IH.
Qed.

Ltac reify_stack m :=
  lazymatch m with
  | <[?k := ?v]> ?m' =>
      let p := reify_stack m' in
      lazymatch p with (?l, ?r) => constr:(((k, v) :: l, r)) end
  | _ => constr:((@nil (string * pyval), m))
  end.

Ltac fast_look :=
  repeat match goal with
         | |- context [ (<[?k0 := ?v0]> ?m0) !! ?k ] =>
             let p := reify_stack (<[k0 := v0]> m0) in
             lazymatch p with
             | (?l, ?r) =>
                 change ((<[k0 := v0]> m0) !! k) with (stack l r !! k);
                 rewrite (stack_lookup l r k);
                 cbn [assoc String.eqb Ascii.eqb Bool.eqb]
             end
         end.


Ltac known_lookups :=
  repeat match goal with
         | H : ?r !! ?k = _ |- context [?r !! ?k] => rewrite H
         end.

Ltac not_in_log Hsub :=
  let Hin := fresh "Hin" in
  intros Hin; apply elem_of_app in Hin as [Hin|Hin];
  [apply Hsub in Hin; in_cases Hin; discriminate | in_cases Hin; discriminate].

(** The steps of the log [T], as those of the base log [t0] followed by an
    explicit list. *)
Ltac steps_of_log t0 T :=
  let L := fresh "L" in
  let HT := fresh "HT" in
  evar (L : list string);
  assert (HT : steps_of T = steps_of t0 ++ L);
  [ norm_log; subst L; reflexivity | subst L ].

Ltac final_log t0 :=
  lazymatch goal with
  | |- ext_facts _ _ _ ?T => steps_of_log t0 T
  | |- _ ∉ steps_of ?T => steps_of_log t0 T
  end.

Ltac prefix_chain :=
  solve [ reflexivity | eassumption | (etrans; [eassumption | prefix_chain]) ].

Lemma ext_sat a key pro kit_url kit_local plugins r0 t0 :
  run (deploy_wordpress w self wp_config_php cmd_head a None (plugins_or_empty plugins))
  = (Returns r0, t0) ->
  base_facts w self None (plugins_or_empty plugins) r0 t0 ->
  r0 !! "success" = Some (PBool true) ->
  sat (deploy_wordpress_with_elementor w self wp_config_php cmd_head a key pro kit_url
         kit_local plugins) []
      (ext_facts r0 t0) anyhow.
Proof.
  intros E0 (_ & Hlists & _ & Hel0 & Hsub & _) Hsucc.
  unfold deploy_wordpress_with_elementor.
  apply sat_bind. unfold sat at 1.
  change (deploy_wordpress w self wp_config_php cmd_head a None
            (Some (if optlist_truthy plugins then default [] plugins else [])) [])
    with (run (deploy_wordpress w self wp_config_php cmd_head a None (plugins_or_empty plugins))).
  rewrite E0.
  apply sat_bind. eapply sat_getitem; [exact Hsucc |]. cbn [truthy negb].
  unfold add_elementor_fields.
  destruct (opt_truthy key && opt_truthy pro) eqn:Hpro,
           (opt_truthy kit_url) eqn:Hurl, (opt_truthy kit_local) eqn:Hlocal;
    cbn [andb orb]; rewrite ?server_path_truthy by discriminate; cbn [andb orb].
  all: repeat sat_step.
  all: try exact I.
  all: final_log t0.
  all: unfold ext_facts, lists_steps, records_results, base_steps, critical_steps,
         optional_steps, elementor_steps, elementor_steps_read in *;
       cbn [app] in *; rewrite HT; clear HT.
  all: split; [intros k Hk; in_cases Hk; subst k; fast_look; reflexivity |].
  all: split;
    [ intros k Hk; in_cases Hk; subst k; fast_look; (split; [eauto |]);
      first [ reflexivity
            | intros Hn; exfalso; apply Hn; apply elem_of_app; right; repeat constructor ] |].
  all: split;
    [ intros k Hk Hin; in_cases Hk; subst k; fast_look;
      first [ eexists; reflexivity | exfalso; revert Hin; not_in_log Hsub ] |].
  all: split;
    [ intros k Hk; apply elem_of_app in Hk as [Hk|Hk];
      [left; exact Hk | right; in_cases Hk; subst k; repeat constructor] |].
  all: split; [intros k Hk; apply elem_of_app; left; exact Hk |].
  all: split; [apply elem_of_app; right; repeat constructor |].
  all: split;
    [ fast_look;
      first [ intros _; eexists; split; [reflexivity | assumption]
            | intros Hin; exfalso; revert Hin; not_in_log Hsub ] |].
  all: fast_look; intros u Hu Hf; first [discriminate Hu | injection Hu as <-];
       try congruence.
  all: split; [reflexivity |].
  all: split; [not_in_log Hsub |].
  all: eexists; split; [reflexivity | falsy].
Qed.

(** The start of a proof about the extended pipeline: the base pipeline is
    taken by its facts, and its two outcomes are told apart. *)
Ltac ext_begin :=
  unfold deploy_wordpress_with_elementor;
  apply sat_bind;
  eapply sat_weaken; [apply deploy_wordpress_sat | | intros ? ? Hbad0; try exact I];
  [ intros r0 t0 ((b & Hsucc & Hiff & Hst) & Hlists & Hread & Hel0 & Hsub & Hhalted);
    cbv beta;
    apply sat_bind; eapply sat_getitem; [exact Hsucc |]; cbn [truthy];
    destruct b; cbn [negb]; [unfold add_elementor_fields | apply sat_ret];
    unfold base_steps, critical_steps, optional_steps, elementor_steps in Hsub, Hel0;
    cbn [app] in Hsub
  | .. ].

Lemma ext_failed_base a key pro kit_url kit_local plugins r0 t0 v :
  run (deploy_wordpress w self wp_config_php cmd_head a None (plugins_or_empty plugins))
  = (Returns r0, t0) ->
  r0 !! "success" = Some v -> truthy v = false ->
  run (deploy_wordpress_with_elementor w self wp_config_php cmd_head a key pro kit_url
         kit_local plugins) = (Returns r0, t0).
Proof.
  intros E0 Hs Hv. unfold run, deploy_wordpress_with_elementor.
  rewrite (bind_eq _ _ _ _ _ E0).
  rewrite (bind_eq _ _ _ _ _ (getitem_some _ _ _ _ Hs)).
  now rewrite Hv.
Qed.

(** A run of the extended pipeline that returns began with a base run that
    returned. *)
Lemma ext_base_returned a key pro kit_url kit_local plugins r t :
  run (deploy_wordpress_with_elementor w self wp_config_php cmd_head a key pro kit_url
         kit_local plugins) = (Returns r, t) ->
  exists r0 t0,
    run (deploy_wordpress w self wp_config_php cmd_head a None (plugins_or_empty plugins))
    = (Returns r0, t0).
Proof.
  unfold run, deploy_wordpress_with_elementor, bind at 1, plugins_or_empty.
  destruct (deploy_wordpress w self wp_config_php cmd_head a None
              (Some (if optlist_truthy plugins then default [] plugins else [])) [])
    as [[r0|e] t0]; [eauto | discriminate].
Qed.

Lemma base_not_elementor k : k ∈ base_steps -> k ∈ elementor_steps -> False.
Proof.
  unfold base_steps, critical_steps, optional_steps, elementor_steps. cbn [app].
  intros Hb He. in_cases Hb; subst k; in_cases He; discriminate.
Qed.

Lemma critical_in_base k : k ∈ critical_steps -> k ∈ base_steps.
Proof. intros H. apply elem_of_app. now left. Qed.

(** The base steps of a report of the extended pipeline are those of its
    base run. *)
Lemma ext_lists_base_steps r0 t0 r t :
  lists_steps base_steps r0 t0 -> ext_facts r0 t0 r t -> lists_steps base_steps r t.
Proof.
  intros Hl (Hframe & _ & _ & Hsub & Hsup & _) k Hk.
  destruct (Hl k Hk) as [Hs Hnone]. rewrite (Hframe k Hk).
  split; [exact Hs |]. intros Hn. apply Hnone. intros Hin. apply Hn. now apply Hsup.
Qed.

Lemma ext_records_critical r0 t0 r t :
  records_results critical_steps r0 t0 -> ext_facts r0 t0 r t ->
  records_results critical_steps r t.
Proof.
  intros Hr (Hframe & _ & _ & Hsub & _) k Hk Hin.
  rewrite (Hframe k (critical_in_base k Hk)). apply (Hr k Hk).
  destruct (Hsub k Hin) as [H | H]; [exact H |].
  destruct (base_not_elementor k (critical_in_base k Hk) H).
Qed.

Lemma entry_ok_spec (r : report) k :
  entry_ok r k = true <-> exists d, r !! k = Some (PDict d) /\ truthy (status d) = true.
Proof.
  unfold entry_ok. split.
  - destruct (r !! k) as [[]|]; try discriminate. eauto.
  - intros (d & -> & H). exact H.
Qed.

Lemma entry_ok_insert_ne (r : report) k k' v :
  k' <> k -> entry_ok (<[k' := v]> r) k = entry_ok r k.
Proof. intros H. unfold entry_ok. now rewrite lookup_insert_ne. Qed.




Lemma aggregated_intro key pro kit_url kit_local (r : report) v :
  truthy v = forallb (entry_ok r) critical_steps
             && elementor_verdict r key pro kit_url kit_local ->
  (exists k d, k ∈ elementor_steps /\ r !! k = Some (PDict d) /\ v = status d) ->
  aggregated key pro kit_url kit_local (<["success" := v]> r).
Proof.
  intros Hv (k & d & Hk & Hd & Hs).
  exists v. split; [apply lookup_insert_eq |].
  unfold elementor_verdict, critical_steps. cbn [forallb].
  rewrite !entry_ok_insert_ne by discriminate.
  split; [exact Hv |]. intros _. exists k, d.
  split; [exact Hk |]. split; [| exact Hs].
  rewrite lookup_insert_ne; [exact Hd |].
  intros <-. unfold elementor_steps in Hk. in_cases Hk; discriminate.
Qed.

(** The goal of an exception raised on an answer that cannot be read, the
    log having moved on since the answer came. *)
Ltac bad_in_log :=
  eapply bad_answer_last_in_log; [bad_last | prefix_chain].

Lemma ext_verdict_sat a key pro kit_url kit_local plugins :
  sat (deploy_wordpress_with_elementor w self wp_config_php cmd_head a key pro kit_url
         kit_local plugins) []
      (fun r _ => aggregated key pro kit_url kit_local r)
      (fun e t => bad_answer_in_log w self t \/
                  skipped_import_raise w self a kit_url kit_local e t).
Proof.
  ext_begin.
  3:{ left. destruct Hbad0 as [Hb _]. eexists. split; [reflexivity | exact Hb]. }
  2:{ assert (entry_ok r0 "elementor_installation" = false) as Hno
        by (unfold entry_ok; rewrite Hel0 by repeat constructor; reflexivity).
      exists (PBool false). split; [exact Hsucc |]. split.
      - unfold elementor_verdict. rewrite Hno. cbn [andb truthy]. now rewrite andb_false_r.
      - intros Hall. enough (false = true) by discriminate. apply Hiff.
        intros k Hk. apply entry_ok_spec.
        rewrite List.forallb_forall in Hall. apply Hall. now apply list_elem_of_In. }
  pose proof (proj1 Hiff eq_refl) as Hall. unfold critical_steps in Hall.
  expand_forall Hall. open_facts. clear Hiff Hst Hlists Hread Hhalted.
  destruct (opt_truthy key && opt_truthy pro) eqn:Hpro,
           (opt_truthy kit_url) eqn:Hurl, (opt_truthy kit_local) eqn:Hlocal;
    cbn [andb orb]; rewrite ?server_path_truthy by discriminate; cbn [andb orb].
  all: repeat sat_step.
  all: lazymatch goal with
       | |- aggregated _ _ _ _ _ => idtac
       | |- _ \/ _ =>
           first
             [ solve [left; bad_in_log]
             | right; unfold skipped_import_raise; rewrite ?Hurl, ?Hlocal; cbn [orb];
               split; [reflexivity |]; split; [reflexivity |];
               split;
               [ match goal with
                 | |- _ ∉ steps_of ?T => steps_of_log t0 T; rewrite HT; not_in_log Hsub
                 end |];
               eexists _, _, _; split; [eassumption |]; split; [prefix_chain | assumption] ]
       end.
  all: apply aggregated_intro.
  all: try (unfold elementor_verdict, entry_ok, critical_steps; cbn [forallb];
            rewrite Hpro, Hurl, Hlocal; cbn [orb]; fast_look; known_lookups; falsy).
  all: unfold py_and, elementor_steps; cbn [truthy];
       repeat match goal with Ht : truthy _ = _ |- _ => rewrite Ht end;
       repeat match goal with
              | |- context [if truthy ?x then _ else _] => destruct (truthy x)
              end.
  all: first
    [ exists "elementor_installation"; eexists;
      split; [repeat constructor | split; [fast_look; reflexivity | reflexivity]]
    | exists "elementor_pro_upload"; eexists;
      split; [repeat constructor | split; [fast_look; reflexivity | reflexivity]]
    | exists "elementor_pro_installation"; eexists;
      split; [repeat constructor | split; [fast_look; reflexivity | reflexivity]]
    | exists "kit_upload"; eexists;
      split; [repeat constructor | split; [fast_look; reflexivity | reflexivity]]
    | exists "kit_import"; eexists;
      split; [repeat constructor | split; [fast_look; reflexivity | reflexivity]] ].
Qed.


Lemma plugins_sat a theme plugins :
  optlist_truthy plugins = true ->
  sat (deploy_wordpress w self wp_config_php cmd_head a theme plugins) []
      (fun r t =>
         r !! "success" = Some (PBool true) ->
         let url := base_url self +:+ "Execute/exec" in
         let body :=
           [("command",
             PStr ("cd " +:+ path a +:+ " && "
                   +:+ join " && " (map (fun p => "wp plugin install " +:+ p +:+ " --activate")
                                        (default [] plugins))))] in
         exists t1 answer,
           steps_of t1
           = critical_steps ++ (if opt_truthy theme then ["theme_installation"] else []) /\
           t = t1 ++ [EStep "plugin_installation"; EPost url (headers self) body] /\
           api_result (requests_post w (t1 ++ [EStep "plugin_installation"]) url
                         (headers self) body)
           = Returns answer /\
           r !! "plugin_installation" = Some answer)
      anyhow.
Proof.
  intros Hplugins. unfold deploy_wordpress.
  pose proof (initial_chain_state (domain a)) as H0.
  assert (forall n k res r t, halted_state w self n k res r t ->
            r !! "success" = Some (PBool true) -> False) as Hhalt.
  { intros n k res r t (_ & _ & _ & _ & _ & _ & _ & Hs & _) Hs'. congruence. }
  eapply (mandatory_rule 0); [reflexivity | eauto with remotes | exact H0 | intros; exact I | intros ? ? ? Hh Hs; destruct (Hhalt _ _ _ _ _ Hh Hs) |].
  clear H0; intros r1 t1 H1.
  eapply (mandatory_rule 1); [reflexivity | eauto with remotes | exact H1 | intros; exact I | intros ? ? ? Hh Hs; destruct (Hhalt _ _ _ _ _ Hh Hs) |].
  clear H1; intros r2 t2 H2.
  eapply (mandatory_rule 2); [reflexivity | eauto with remotes | exact H2 | intros; exact I | intros ? ? ? Hh Hs; destruct (Hhalt _ _ _ _ _ Hh Hs) |].
  clear H2; intros r3 t3 H3.
  eapply (mandatory_rule 3); [reflexivity | eauto with remotes | exact H3 | intros; exact I | intros ? ? ? Hh Hs; destruct (Hhalt _ _ _ _ _ Hh Hs) |].
  clear H3; intros r4 t4 H4.
  eapply (mandatory_rule 4); [reflexivity | eauto with remotes | exact H4 | intros; exact I | intros ? ? ? Hh Hs; destruct (Hhalt _ _ _ _ _ Hh Hs) |].
  clear H4; intros r5 t5 H5.
  eapply (mandatory_rule 5); [reflexivity | eauto with remotes | exact H5 | intros; exact I | intros ? ? ? Hh Hs; destruct (Hhalt _ _ _ _ _ Hh Hs) |].
  clear H5; intros r6 t6 H6.
  eapply (mandatory_rule 6); [reflexivity | eauto with remotes | exact H6 | intros; exact I | intros ? ? ? Hh Hs; destruct (Hhalt _ _ _ _ _ Hh Hs) |].
  clear H6 Hhalt; intros r t (Hsteps & Hdone & Htodo & Hsucc & Hel).
  unfold base_steps, critical_steps, optional_steps, elementor_steps in *;
    cbn [take drop app] in *.
  expand_forall Hdone. expand_forall Htodo. open_facts.
  rewrite Hplugins.
  repeat sat_step.
  all: try exact I.
  all: intros _.
  all: match goal with
       | Hrun : make_api_request _ _ _ _ _ (?t1 ++ [EStep "plugin_installation"])
                = (Returns ?v, _) |- _ =>
           unfold make_api_request in Hrun; injection Hrun as Hans <-; exists t1, v
       end.
  all: (split; [norm_log; rewrite Hsteps; reflexivity |]).
  all: (split; [now rewrite <- app_assoc |]).
  all: (split; [exact Hans | look; reflexivity]).
Qed.


(** The free Elementor install halts nothing: whatever its result, a run
    that got to it and returns has attempted the Pro upload when the Pro
    inputs were supplied, and the kit upload when a local kit file was. *)
Lemma elementor_goes_on_sat a key pro kit_url kit_local plugins :
  sat (deploy_wordpress_with_elementor w self wp_config_php cmd_head a key pro kit_url
         kit_local plugins) []
      (fun r t =>
         "elementor_installation" ∈ steps_of t ->
         (opt_truthy key && opt_truthy pro = true -> "elementor_pro_upload" ∈ steps_of t) /\
         (opt_truthy kit_local = true -> "kit_upload" ∈ steps_of t))
      anyhow.
Proof.
  ext_begin.
  2:{ intros Hin. apply Hsub in Hin. in_cases Hin; discriminate. }
  destruct (opt_truthy key && opt_truthy pro) eqn:Hpro,
           (opt_truthy kit_url) eqn:Hurl, (opt_truthy kit_local) eqn:Hlocal;
    cbn [andb orb]; rewrite ?server_path_truthy by discriminate; cbn [andb orb].
  all: repeat sat_step.
  all: try exact I.
  all: intros _.
  all: match goal with
       | |- (_ -> _ ∈ steps_of ?T) /\ _ => steps_of_log t0 T; rewrite HT
       end.
  all: split; intros Hc; first [discriminate Hc | apply elem_of_app; right; repeat constructor].
Qed.

(** What a run of the extended pipeline that returns went through: a base
    run that returned, and then either the facts of the Elementor steps, or,
    the base pipeline having failed, nothing more. *)
Lemma ext_returned a key pro kit_url kit_local plugins r t :
  run (deploy_wordpress_with_elementor w self wp_config_php cmd_head a key pro kit_url
         kit_local plugins) = (Returns r, t) ->
  exists r0 t0 b,
    run (deploy_wordpress w self wp_config_php cmd_head a None (plugins_or_empty plugins))
    = (Returns r0, t0) /\
    base_facts w self None (plugins_or_empty plugins) r0 t0 /\
    r0 !! "success" = Some (PBool b) /\
    if b then ext_facts r0 t0 r t else r = r0 /\ t = t0.
Proof.
  intros E. destruct (ext_base_returned a key pro kit_url kit_local plugins r t E)
    as (r0 & t0 & E0).
  pose proof (deploy_wordpress_returns a None (plugins_or_empty plugins) r0 t0 E0) as Hfacts.
  pose proof Hfacts as ((b & Hsucc & _) & _).
  exists r0, t0, b. split; [exact E0 |]. split; [exact Hfacts |]. split; [exact Hsucc |].
  destruct b.
  - exact (sat_returns _ _ _ _ _ _
             (ext_sat a key pro kit_url kit_local plugins r0 t0 E0 Hfacts Hsucc) E).
  - rewrite (ext_failed_base a key pro kit_url kit_local plugins r0 t0 _ E0 Hsucc eq_refl) in E.
    injection E as <- <-. split; reflexivity.
Qed.

(** In a report of the extended pipeline the critical entries tell whether
    the base pipeline succeeded. *)
Lemma ext_base_verdict (r0 r : report) (b : bool) :
  (b = true <-> forall k, k ∈ critical_steps ->
                  exists d, r0 !! k = Some (PDict d) /\ truthy (status d) = true) ->
  (forall k, k ∈ base_steps -> r !! k = r0 !! k) ->
  forallb (entry_ok r) critical_steps = b.
Proof.
  intros Hiff Hframe.
  assert (Hsame : forall k, k ∈ critical_steps -> entry_ok r k = entry_ok r0 k).
  { intros k Hk. unfold entry_ok. now rewrite (Hframe k (critical_in_base k Hk)). }
  destruct (forallb (entry_ok r) critical_steps) eqn:F.
  - symmetry. apply Hiff. intros k Hk. apply entry_ok_spec. rewrite <- (Hsame k Hk).
    rewrite List.forallb_forall in F. apply F. now apply list_elem_of_In.
  - destruct b; [| reflexivity]. rewrite <- F.
    apply List.forallb_forall. intros k Hk. apply list_elem_of_In in Hk.
    rewrite (Hsame k Hk). apply entry_ok_spec. now apply (proj1 Hiff eq_refl).
Qed.

End Pipelines.

(** ** The concrete worlds answer with JSON objects *)

Lemma world_failing_answers_objects failing self :
  answers_objects (world_failing failing) self.
Proof.
  intros t url body. cbn [world_failing requests_post].
  destruct (existsb (Nat.eqb (posts_in t)) failing); eexists; reflexivity.
Qed.

Lemma report_of_returns (m : M report) r t : run m = (Returns r, t) -> r = report_of (run m).
Proof. intros E. unfold report_of. now rewrite E. Qed.

(** ** The base pipeline *)

(** C5.  When no theme and no plugins are asked for, a report returned by
    [deploy_wordpress] in which all seven critical steps have a result with
    a truthy status has success [True], both optional entries are still
    null and the steps attempted are exactly the seven.  A report is
    returned whenever the control panel answers with JSON objects. *)
Theorem all_critical_steps_succeed
    (w : world) (self : deployer)
    (wp_config_php : deployer -> string -> string -> string -> string -> string -> string -> string)
    (cmd_head : string) (a : site)
    (install_theme : option string) (install_plugins : option (list string)) :
  opt_truthy install_theme = false ->
  optlist_truthy install_plugins = false ->
  (answers_objects w self ->
   exists r t,
     run (deploy_wordpress w self wp_config_php cmd_head a install_theme install_plugins)
     = (Returns r, t)) /\
  (forall r t,
     run (deploy_wordpress w self wp_config_php cmd_head a install_theme install_plugins)
     = (Returns r, t) ->
     (forall k, k ∈ critical_steps ->
        exists d, r !! k = Some (PDict d) /\ truthy (status d) = true) ->
     r !! "success" = Some (PBool true) /\
     r !! "theme_installation" = Some PNone /\
     r !! "plugin_installation" = Some PNone /\
     steps_of t = critical_steps).
Proof.
  intros Htheme Hplugins. split.
  - intros Hw.
    destruct (deploy_wordpress_facts w self wp_config_php cmd_head a install_theme
                install_plugins Hw) as (r & t & E & _).
    now exists r, t.
  - intros r t E Hall.
    destruct (deploy_wordpress_returns w self wp_config_php cmd_head a install_theme
                install_plugins r t E) as ((b & Hsucc & Hiff & Hst) & Hlists & _).
    apply Hiff in Hall. subst b. specialize (Hst eq_refl).
    rewrite Htheme, Hplugins in Hst. cbn [app] in Hst. rewrite app_nil_r in Hst.
    split; [exact Hsucc |].
    split; [| split; [| exact Hst]].
    + apply (Hlists "theme_installation");
        [unfold base_steps; apply elem_of_app; right; repeat constructor |].
      rewrite Hst. unfold critical_steps. not_in.
    + apply (Hlists "plugin_installation");
        [unfold base_steps; apply elem_of_app; right; repeat constructor |].
      rewrite Hst. unfold critical_steps. not_in.
Qed.

Lemma all_critical_steps_succeed_witness :
  exists r t,
    run (deploy_wordpress (world_failing []) the_deployer the_config_php the_cmd_head the_site
           None None) = (Returns r, t) /\
    r !! "success" = Some (PBool true) /\
    r !! "theme_installation" = Some PNone /\
    r !! "plugin_installation" = Some PNone /\
    steps_of t = critical_steps.
Proof.
  destruct (all_critical_steps_succeed (world_failing []) the_deployer the_config_php
              the_cmd_head the_site None None eq_refl eq_refl) as (Hreturns & H).
  destruct (Hreturns (world_failing_answers_objects [] the_deployer)) as (r & t & E).
  exists r, t. split; [exact E |]. apply (H r t E).
  rewrite (report_of_returns _ _ _ E).
  intros k Hk. unfold critical_steps in Hk.
  in_cases Hk; subst k; eexists; (split; [vm_compute; reflexivity | reflexivity]).
Defined.

(** C4.  When the base pipeline run by [deploy_wordpress_with_elementor]
    returns a report whose success is falsy, the extended pipeline returns
    that very report and leaves the log where the base pipeline left it: no
    Elementor step is attempted, and the report has no Elementor entry. *)
Theorem failed_base_skips_elementor
    (w : world) (self : deployer)
    (wp_config_php : deployer -> string -> string -> string -> string -> string -> string -> string)
    (cmd_head : string) (a : site)
    (elementor_pro_key elementor_pro_local_path kit_url kit_local_path : option string)
    (install_plugins : option (list string))
    (r0 : report) (t0 : list event) (success : pyval) :
  run (deploy_wordpress w self wp_config_php cmd_head a None (plugins_or_empty install_plugins))
  = (Returns r0, t0) ->
  r0 !! "success" = Some success -> truthy success = false ->
  run (deploy_wordpress_with_elementor w self wp_config_php cmd_head a elementor_pro_key
         elementor_pro_local_path kit_url kit_local_path install_plugins)
  = (Returns r0, t0) /\
  forall k, k ∈ elementor_steps -> (k ∉ steps_of t0) /\ r0 !! k = None.
Proof.
  intros E0 Hs Hf. split.
  - exact (ext_failed_base w self wp_config_php cmd_head a _ _ _ _ _ r0 t0 success E0 Hs Hf).
  - destruct (deploy_wordpress_returns w self wp_config_php cmd_head a None
                (plugins_or_empty install_plugins) r0 t0 E0)
      as (_ & _ & _ & Hel & Hsub & _).
    intros k Hk. split; [| exact (Hel k Hk)].
    intros Hin. exact (base_not_elementor k (Hsub k Hin) Hk).
Qed.

Lemma failed_base_skips_elementor_witness :
  let o := run (deploy_wordpress (world_failing [0%nat]) the_deployer the_config_php
                  the_cmd_head the_site None (plugins_or_empty None)) in
  run (deploy_wordpress_with_elementor (world_failing [0%nat]) the_deployer the_config_php
         the_cmd_head the_site (Some "license") (Some "/tmp/elementor-pro.zip")
         (Some "https://example.com/kit.zip") None None)
  = (Returns (report_of o), snd o).
Proof.
  intros o.
  refine (proj1 (failed_base_skips_elementor (world_failing [0%nat]) the_deployer
                   the_config_php the_cmd_head the_site _ _ _ _ None (report_of o) (snd o)
                   (PBool false) _ _ eq_refl)).
  - vm_cast_no_check (eq_refl (Returns (report_of o), snd o)).
  - vm_compute. reflexivity.
Defined.

(** C1 (as amended).  In both pipelines, when one of the seven critical
    steps of the base pipeline has, in the report returned, a result with a
    falsy status, the run halted there: the steps attempted are exactly the
    pipeline up to that step, the POST that produced the failing result is
    the last request made, every later step of the base pipeline is still
    null, and the report's success is [False]; the extended pipeline then
    returns the base report as it is.  The free Elementor install is not
    such a step: whatever its result, a run of the extended pipeline that
    got to it and returns has attempted the Pro upload when a Pro key and
    package were supplied, and the kit upload when a local kit file was. *)
Theorem critical_failure_halts
    (w : world) (self : deployer)
    (wp_config_php : deployer -> string -> string -> string -> string -> string -> string -> string)
    (cmd_head : string) (a : site)
    (install_theme : option string)
    (elementor_pro_key elementor_pro_local_path kit_url kit_local_path : option string)
    (install_plugins : option (list string))
    (i : nat) (k : string) :
  critical_steps !! i = Some k ->
  (forall r t res,
     run (deploy_wordpress w self wp_config_php cmd_head a install_theme install_plugins)
     = (Returns r, t) ->
     r !! k = Some (PDict res) -> truthy (status res) = false ->
     halted_at w self i res r t) /\
  (forall r0 t0 res,
     run (deploy_wordpress w self wp_config_php cmd_head a None (plugins_or_empty install_plugins))
     = (Returns r0, t0) ->
     r0 !! k = Some (PDict res) -> truthy (status res) = false ->
     run (deploy_wordpress_with_elementor w self wp_config_php cmd_head a elementor_pro_key
            elementor_pro_local_path kit_url kit_local_path install_plugins)
     = (Returns r0, t0)) /\
  (forall r t res,
     run (deploy_wordpress_with_elementor w self wp_config_php cmd_head a elementor_pro_key
            elementor_pro_local_path kit_url kit_local_path install_plugins)
     = (Returns r, t) ->
     r !! k = Some (PDict res) -> truthy (status res) = false ->
     halted_at w self i res r t) /\
  (forall r t,
     run (deploy_wordpress_with_elementor w self wp_config_php cmd_head a elementor_pro_key
            elementor_pro_local_path kit_url kit_local_path install_plugins)
     = (Returns r, t) ->
     "elementor_installation" ∈ steps_of t ->
     (opt_truthy elementor_pro_key && opt_truthy elementor_pro_local_path = true ->
      "elementor_pro_upload" ∈ steps_of t) /\
     (opt_truthy kit_local_path = true -> "kit_upload" ∈ steps_of t)).
Proof.
  intros Hk.
  assert (Hkc : k ∈ critical_steps) by exact (list_elem_of_lookup_2 _ _ _ Hk).
  split; [| split; [| split]].
  - intros r t res E.
    destruct (deploy_wordpress_returns w self wp_config_php cmd_head a install_theme
                install_plugins r t E) as (_ & _ & _ & _ & _ & Hhalt).
    exact (Hhalt i k res Hk).
  - intros r0 t0 res E0 Hres Hf.
    destruct (deploy_wordpress_returns w self wp_config_php cmd_head a None
                (plugins_or_empty install_plugins) r0 t0 E0)
      as ((b & Hsucc & Hiff & _) & _).
    destruct b.
    + destruct (proj1 Hiff eq_refl k Hkc) as (d & Hd & Ht). congruence.
    + exact (ext_failed_base w self wp_config_php cmd_head a _ _ _ _ _ r0 t0 _ E0 Hsucc eq_refl).
  - intros r t res E Hres Hf.
    destruct (ext_returned w self wp_config_php cmd_head a elementor_pro_key
                elementor_pro_local_path kit_url kit_local_path install_plugins r t E)
      as (r0 & t0 & b & E0 & Hfacts & Hsucc & Hext).
    pose proof Hfacts as ((b' & Hsucc' & Hiff & _) & _ & _ & _ & _ & Hhalt).
    assert (b' = b) by congruence. subst b'.
    destruct b.
    + destruct Hext as (Hframe & _).
      rewrite (Hframe k (critical_in_base k Hkc)) in Hres.
      destruct (proj1 Hiff eq_refl k Hkc) as (d & Hd & Ht). congruence.
    + destruct Hext as [-> ->]. exact (Hhalt i k res Hk Hres Hf).
  - intros r t E.
    exact (sat_returns _ _ _ _ _ _
             (elementor_goes_on_sat w self wp_config_php cmd_head a elementor_pro_key
                elementor_pro_local_path kit_url kit_local_path install_plugins) E).
Qed.

Lemma critical_failure_halts_witness :
  let o := run (deploy_wordpress (world_failing [3%nat]) the_deployer the_config_php
                  the_cmd_head the_site None None) in
  exists res,
    report_of o !! "wordpress_download" = Some (PDict res) /\
    truthy (status res) = false /\
    halted_at (world_failing [3%nat]) the_deployer 3 res (report_of o) (snd o).
Proof.
  intros o.
  exists [("status", PInt 0); ("errors", PList [PStr "remote failure"]); ("data", PNone)].
  split; [vm_compute; reflexivity |]. split; [reflexivity |].
  refine (proj1 (critical_failure_halts (world_failing [3%nat]) the_deployer the_config_php
                   the_cmd_head the_site None None None None None None
                   3 "wordpress_download" eq_refl) (report_of o) (snd o)
            [("status", PInt 0); ("errors", PList [PStr "remote failure"]); ("data", PNone)]
            _ _ eq_refl).
  - vm_cast_no_check (eq_refl (Returns (report_of o), snd o)).
  - vm_compute. reflexivity.
Defined.

(** C1, the counterexample.  In the extended pipeline a failed free
    Elementor install does not halt the run: with a Pro license and package
    supplied, the Pro upload and the Pro install are still attempted after
    it. *)
Lemma failed_elementor_install_does_not_halt :
  let o := run (deploy_wordpress_with_elementor (world_failing [7%nat]) the_deployer
                  the_config_php the_cmd_head the_site (Some "license")
                  (Some "/tmp/elementor-pro.zip") None None None) in
  report_of o !! "elementor_installation"
  = Some (PDict [("status", PInt 0); ("errors", PList [PStr "remote failure"]);
                 ("data", PNone)]) /\
  steps_of (snd o)
  = critical_steps ++ ["elementor_installation"; "elementor_pro_upload";
                       "elementor_pro_installation"] /\
  posts_in (snd o) = 10%nat.
Proof. vm_compute. repeat split; reflexivity. Qed.

(** ** The report *)

(** C7 (as amended).  A report returned by [deploy_wordpress] has an entry
    for each of its nine steps, null when the step was never attempted, and
    the entry of a critical step that was attempted is a call result, not
    null.  A report returned by [deploy_wordpress_with_elementor] has the
    same nine entries; when its seven critical steps are all recorded as
    done, the five Elementor entries are there, null when the step was
    never attempted, and those of the Elementor install, the Pro upload, the
    Pro install and the kit upload are call results when the step was
    attempted; otherwise the five Elementor entries are absent from the
    report and none of these steps was attempted. *)
Theorem report_lists_attempted_steps
    (w : world) (self : deployer)
    (wp_config_php : deployer -> string -> string -> string -> string -> string -> string -> string)
    (cmd_head : string) (a : site)
    (install_theme : option string)
    (elementor_pro_key elementor_pro_local_path kit_url kit_local_path : option string)
    (install_plugins : option (list string)) :
  (forall r t,
     run (deploy_wordpress w self wp_config_php cmd_head a install_theme install_plugins)
     = (Returns r, t) ->
     lists_steps base_steps r t /\ records_results critical_steps r t) /\
  (forall r t,
     run (deploy_wordpress_with_elementor w self wp_config_php cmd_head a elementor_pro_key
            elementor_pro_local_path kit_url kit_local_path install_plugins)
     = (Returns r, t) ->
     lists_steps base_steps r t /\ records_results critical_steps r t /\
     if forallb (entry_ok r) critical_steps
     then lists_steps elementor_steps r t /\ records_results elementor_steps_read r t
     else forall k, k ∈ elementor_steps -> r !! k = None /\ (k ∉ steps_of t)).
Proof.
  split.
  - intros r t E.
    destruct (deploy_wordpress_returns w self wp_config_php cmd_head a install_theme
                install_plugins r t E) as (_ & Hlists & Hread & _).
    split; assumption.
  - intros r t E.
    destruct (ext_returned w self wp_config_php cmd_head a elementor_pro_key
                elementor_pro_local_path kit_url kit_local_path install_plugins r t E)
      as (r0 & t0 & b & E0 & Hfacts & Hsucc & Hext).
    pose proof Hfacts as ((b' & Hsucc' & Hiff & _) & Hlists & Hread & Hel & Hsub & _).
    assert (b' = b) by congruence. subst b'.
    destruct b.
    + rewrite (ext_base_verdict r0 r true Hiff (proj1 Hext)).
      split; [exact (ext_lists_base_steps r0 t0 r t Hlists Hext) |].
      split; [exact (ext_records_critical r0 t0 r t Hread Hext) |].
      destruct Hext as (_ & He & Her & _). split; assumption.
    + destruct Hext as [-> ->].
      rewrite (ext_base_verdict r0 r0 false Hiff (fun _ _ => eq_refl)).
      split; [exact Hlists |]. split; [exact Hread |].
      intros k Hk. split; [exact (Hel k Hk) |].
      intros Hin. exact (base_not_elementor k (Hsub k Hin) Hk).
Qed.

(** C7, the counterexample.  When the base pipeline fails, the report of
    the extended pipeline has no entry at all for the Elementor steps: they
    were not attempted, yet they are not listed as null. *)
Lemma failed_base_report_lacks_elementor_entries :
  let o := run (deploy_wordpress_with_elementor (world_failing [0%nat]) the_deployer
                  the_config_php the_cmd_head the_site (Some "license")
                  (Some "/tmp/elementor-pro.zip") (Some "https://example.com/kit.zip")
                  None None) in
  (exists r, fst o = Returns r) /\
  report_of o !! "elementor_installation" = None /\
  report_of o !! "kit_import" = None /\
  steps_of (snd o) = ["database_creation"] /\
  ~ lists_steps (base_steps ++ elementor_steps) (report_of o) (snd o).
Proof.
  intros o.
  assert (Hnone : report_of o !! "elementor_installation" = None) by (vm_compute; reflexivity).
  split; [exists (report_of o); vm_cast_no_check (eq_refl (Returns (report_of o))) |].
  split; [exact Hnone |].
  split; [vm_compute; reflexivity |].
  split; [vm_compute; reflexivity |].
  intros H.
  destruct (H "elementor_installation") as [[v Hv] _].
  - apply elem_of_app. right. repeat constructor.
  - rewrite Hnone in Hv. discriminate Hv.
Qed.

(** C7, a second counterexample.  The seven critical steps succeed and the
    control panel answers the plugin install with the JSON value [null]:
    the step was attempted, its request was sent, and its entry in the
    report returned is null all the same. *)
Lemma null_answer_is_recorded_as_null :
  let o := run (deploy_wordpress (world_answering_at 7 PNone) the_deployer the_config_php
                  the_cmd_head the_site None (Some ["akismet"])) in
  (exists r, fst o = Returns r) /\
  steps_of (snd o) = critical_steps ++ ["plugin_installation"] /\
  posts_in (snd o) = 8%nat /\
  report_of o !! "plugin_installation" = Some PNone /\
  report_of o !! "success" = Some (PBool true).
Proof.
  intros o.
  split; [exists (report_of o); vm_cast_no_check (eq_refl (Returns (report_of o))) |].
  repeat split; vm_compute; reflexivity.
Qed.

(** ** The Elementor steps *)





(** In a report that is returned, a Pro upload with a falsy status means
    that the Pro install was never attempted and that success is falsy. *)
Lemma failed_pro_upload_in_returned_report
    (w : world) (self : deployer)
    (wp_config_php : deployer -> string -> string -> string -> string -> string -> string -> string)
    (cmd_head : string) (a : site)
    (elementor_pro_key elementor_pro_local_path kit_url kit_local_path : option string)
    (install_plugins : option (list string))
    (r : report) (t : list event) (upload : dict) :
  run (deploy_wordpress_with_elementor w self wp_config_php cmd_head a elementor_pro_key
         elementor_pro_local_path kit_url kit_local_path install_plugins)
  = (Returns r, t) ->
  r !! "elementor_pro_upload" = Some (PDict upload) -> truthy (status upload) = false ->
  r !! "elementor_pro_installation" = Some PNone /\
  ("elementor_pro_installation" ∉ steps_of t) /\
  exists success, r !! "success" = Some success /\ truthy success = false.
Proof.
  intros E Hup Hfalse.
  destruct (ext_returned w self wp_config_php cmd_head a elementor_pro_key
              elementor_pro_local_path kit_url kit_local_path install_plugins r t E)
    as (r0 & t0 & b & E0 & Hfacts & Hsucc & Hext).
  destruct b.
  - destruct Hext as (_ & _ & _ & _ & _ & _ & _ & Hpro). exact (Hpro upload Hup Hfalse).
  - destruct Hext as [-> ->]. destruct Hfacts as (_ & _ & _ & Hel & _).
    rewrite Hel in Hup by (unfold elementor_steps; repeat constructor). discriminate Hup.
Qed.

(** C3, at the failing input.  Pro license and package supplied, kit URL
    supplied; the free Elementor install and the Pro upload both answer
    with status 0.  The run returns no report: it raises [AttributeError]
    when the success aggregation reads the status of the kit import that
    was never attempted. *)
Lemma failed_pro_upload_can_raise :
  let o := run (deploy_wordpress_with_elementor (world_failing [7%nat; 8%nat]) the_deployer
                  the_config_php the_cmd_head the_site (Some "license")
                  (Some "/tmp/elementor-pro.zip") (Some "https://example.com/kit.zip")
                  None None) in
  fst o = Raises (AttributeError "'NoneType' object has no attribute 'get'") /\
  steps_of (snd o) = critical_steps ++ ["elementor_installation"; "elementor_pro_upload"].
Proof. vm_compute. split; reflexivity. Qed.

(** * Further properties of the code *)

(** ** Uploads *)

(** X1.  When the local file cannot be read, both upload methods return a
    failed result that carries the description of the error, after the one
    attempt to open the file and without sending any request. *)
Theorem unreadable_file_fails_without_request
    (w : world) (self : deployer) (local_path server_path : string)
    (t : list event) (description : string) :
  open_rb w t local_path = inl description ->
  upload_kit_file w self local_path server_path t
  = (Returns (PDict [("status", PInt 0);
                     ("errors",
                      PList [PStr ("Failed to read local file: " +:+ description)])]),
     t ++ [EOpen local_path]) /\
  upload_elementor_pro_zip w self local_path server_path t
  = (Returns (PDict [("status", PInt 0);
                     ("errors",
                      PList [PStr ("Failed to read Elementor Pro zip: " +:+ description)])]),
     t ++ [EOpen local_path]).
Proof.
  intros H. unfold upload_kit_file, upload_elementor_pro_zip, bind, read_base64.
  rewrite H. split; reflexivity.
Qed.

Lemma unreadable_file_fails_without_request_witness :
  posts_in (snd (upload_kit_file world_offline the_deployer "/tmp/elementor-kit.zip"
                   "/home/u/wp-content/uploads/elementor-kit.zip" [])) = 0%nat.
Proof.
  rewrite (proj1 (unreadable_file_fails_without_request world_offline the_deployer
                    "/tmp/elementor-kit.zip" "/home/u/wp-content/uploads/elementor-kit.zip" []
                    "No such file or directory" eq_refl)).
  reflexivity.
Defined.

(** X2.  When the local file can be read, an upload to the server path of
    the extended pipeline is one request to [Fileman/save_file_content]
    whose parameters are the uploads directory, the file name and the
    Base64 text of the file's bytes. *)
Theorem readable_file_is_saved_in_uploads
    (w : world) (self : deployer) (local_path p : string)
    (t : list event) (content : string) :
  open_rb w t local_path = inr content ->
  upload_kit_file w self local_path (p +:+ "/wp-content/uploads/elementor-kit.zip") t
  = make_api_request w self "Fileman" "save_file_content"
      (Some [("dir", PStr (p +:+ "/wp-content/uploads")); ("file", PStr "elementor-kit.zip");
             ("content", PStr (b64encode content))])
      (t ++ [EOpen local_path]) /\
  upload_elementor_pro_zip w self local_path (p +:+ "/wp-content/uploads/elementor-pro.zip") t
  = make_api_request w self "Fileman" "save_file_content"
      (Some [("dir", PStr (p +:+ "/wp-content/uploads")); ("file", PStr "elementor-pro.zip");
             ("content", PStr (b64encode content))])
      (t ++ [EOpen local_path]).
Proof.
  intros H. destruct (upload_path_splits p) as (D1 & B1 & D2 & B2).
  unfold upload_kit_file, upload_elementor_pro_zip, bind, read_base64.
  rewrite H, D1, B1, D2, B2. split; reflexivity.
Qed.

Lemma readable_file_is_saved_in_uploads_witness :
  snd (upload_kit_file (world_failing []) the_deployer "/tmp/elementor-kit.zip"
         ("/home/u" +:+ "/wp-content/uploads/elementor-kit.zip") [])
  = [EOpen "/tmp/elementor-kit.zip";
     EPost "https://example.com:2083/execute/Fileman/save_file_content" (headers the_deployer)
       [("dir", PStr "/home/u/wp-content/uploads"); ("file", PStr "elementor-kit.zip");
        ("content", PStr "UEs=")]].
Proof.
  rewrite (proj1 (readable_file_is_saved_in_uploads (world_failing []) the_deployer
                    "/tmp/elementor-kit.zip" "/home/u" [] "PK" eq_refl)).
  reflexivity.
Defined.

(** ** The base pipeline's verdict *)

(** X3.  Whenever [deploy_wordpress] returns a report, whatever the
    optional inputs, the success it reports is a Boolean: the conjunction of
    the seven critical steps, the results of the theme and plugin installs
    having no part in it.  It returns whenever the control panel answers
    with JSON objects; when it raises, the last thing it did was a POST
    whose answer it could not read, in a step of the base pipeline. *)
Theorem base_success_is_conjunction
    (w : world) (self : deployer)
    (wp_config_php : deployer -> string -> string -> string -> string -> string -> string -> string)
    (cmd_head : string) (a : site)
    (install_theme : option string) (install_plugins : option (list string)) :
  (forall r t,
     run (deploy_wordpress w self wp_config_php cmd_head a install_theme install_plugins)
     = (Returns r, t) ->
     r !! "success" = Some (PBool (forallb (entry_ok r) critical_steps))) /\
  (answers_objects w self ->
   exists r t,
     run (deploy_wordpress w self wp_config_php cmd_head a install_theme install_plugins)
     = (Returns r, t)) /\
  (forall e t,
     run (deploy_wordpress w self wp_config_php cmd_head a install_theme install_plugins)
     = (Raises e, t) ->
     bad_answer_last w self t /\ forall k, k ∈ steps_of t -> k ∈ base_steps).
Proof.
  split; [| split].
  - intros r t E.
    destruct (deploy_wordpress_returns w self wp_config_php cmd_head a install_theme
                install_plugins r t E) as ((b & Hsucc & Hiff & _) & _).
    rewrite Hsucc. do 2 f_equal. symmetry.
    exact (ext_base_verdict r r b Hiff (fun _ _ => eq_refl)).
  - intros Hw.
    destruct (deploy_wordpress_facts w self wp_config_php cmd_head a install_theme
                install_plugins Hw) as (r & t & E & _).
    now exists r, t.
  - intros e t E.
    exact (sat_raises _ _ _ _ _ _
             (deploy_wordpress_sat w self wp_config_php cmd_head a install_theme
                install_plugins) E).
Qed.

Lemma status_of_result_without_status (d : dict) :
  Forall (fun kv => fst kv <> "status") d -> truthy (status d) = false.
Proof.
  unfold status. induction 1 as [|[k v] d Hk _ IH]; [reflexivity |].
  simpl in *. destruct (String.eqb_spec k "status"); [contradiction | exact IH].
Qed.

(** X4.  A call result that has no [status] field counts as a failure: a
    critical step whose result lacks the field halts the base pipeline
    exactly as a reported failure does. *)
Theorem result_without_status_halts
    (w : world) (self : deployer)
    (wp_config_php : deployer -> string -> string -> string -> string -> string -> string -> string)
    (cmd_head : string) (a : site)
    (install_theme : option string) (install_plugins : option (list string))
    (r : report) (t : list event) (i : nat) (k : string) (res : dict) :
  run (deploy_wordpress w self wp_config_php cmd_head a install_theme install_plugins)
  = (Returns r, t) ->
  critical_steps !! i = Some k ->
  r !! k = Some (PDict res) ->
  Forall (fun kv => fst kv <> "status") res ->
  halted_at w self i res r t.
Proof.
  intros E Hk Hres Hno.
  destruct (deploy_wordpress_returns w self wp_config_php cmd_head a install_theme
              install_plugins r t E) as (_ & _ & _ & _ & _ & Hhalt).
  exact (Hhalt i k res Hk Hres (status_of_result_without_status res Hno)).
Qed.

Lemma result_without_status_halts_witness :
  let o := run (deploy_wordpress world_empty_answers the_deployer the_config_php the_cmd_head
                  the_site None None) in
  halted_at world_empty_answers the_deployer 0 [] (report_of o) (snd o).
Proof.
  intros o.
  refine (result_without_status_halts world_empty_answers the_deployer the_config_php
            the_cmd_head the_site None None (report_of o) (snd o) 0 "database_creation" []
            _ eq_refl _ (List.Forall_nil _)).
  - vm_cast_no_check (eq_refl (Returns (report_of o), snd o)).
  - vm_compute. reflexivity.
Defined.

(** ** Traffic of the pipelines *)

Lemma posts_in_app (t1 t2 : list event) : posts_in (t1 ++ t2) = posts_in t1 + posts_in t2.
Proof. induction t1 as [|[] t1 IH]; simpl; auto. Qed.

Lemma silent_ret {A} (a : A) : silent (ret a).
Proof. intros t. reflexivity. Qed.

Lemma silent_raise {A} e : silent (@raise A e).
Proof. intros t. reflexivity. Qed.

Lemma silent_bind {A B} (m : M A) (k : A -> M B) :
  silent m -> (forall a, silent (k a)) -> silent (bind m k).
Proof.
  intros Hm Hk t. unfold bind. specialize (Hm t).
  destruct (m t) as [[a|e] t']; simpl in Hm; subst t'; [apply Hk | reflexivity].
Qed.

Lemma silent_if {A} (c : bool) (m1 m2 : M A) :
  silent m1 -> silent m2 -> silent (if c then m1 else m2).
Proof. destruct c; auto. Qed.

Lemma silent_getitem r k : silent (getitem r k).
Proof. unfold getitem. destruct (r !! k); [apply silent_ret | apply silent_raise]. Qed.

Lemma silent_py_get v k d : silent (py_get v k d).
Proof. destruct v; first [apply silent_ret | apply silent_raise]. Qed.

Lemma silent_status_at r k : silent (status_at r k).
Proof. apply silent_bind; [apply silent_getitem | intros; apply silent_py_get]. Qed.

Lemma silent_getitems r keys : silent (getitems r keys).
Proof.
  induction keys as [|k keys IH]; [apply silent_ret |].
  apply silent_bind; [apply silent_getitem | intros v].
  apply silent_bind; [exact IH | intros; apply silent_ret].
Qed.

Lemma silent_all_status values : silent (all_status values).
Proof.
  induction values as [|v values IH]; [apply silent_ret |].
  apply silent_bind; [apply silent_py_get | intros s].
  apply silent_if; [exact IH | apply silent_ret].
Qed.

Create HintDb silence.
#[export] Hint Resolve silent_ret silent_bind silent_if silent_getitem silent_py_get
  silent_status_at silent_getitems silent_all_status : silence.

Section Pace.

Variable lo : nat.
Variable P : event -> Prop.

Lemma paced_silent {A} l (m : M A) : silent m -> paced lo P l m.
Proof.
  intros H t. exists []. rewrite app_nil_r. simpl.
  split; [apply H |]. split; [constructor |]. split; [apply sublist_nil_l | lia].
Qed.

Lemma paced_ret {A} l (a : A) : paced lo P l (ret a).
Proof. apply paced_silent, silent_ret. Qed.

Lemma paced_weaken {A} l l' (m : M A) : paced lo P l m -> l `sublist_of` l' -> paced lo P l' m.
Proof.
  intros H Hl t. destruct (H t) as (evs & E & HP & Hs & Hn).
  exists evs. split; [exact E |]. split; [exact HP |]. split; [now transitivity l | lia].
Qed.

Lemma paced_bind {A B} l1 l2 (m : M A) (k : A -> M B) :
  paced lo P l1 m -> (forall a, paced lo P l2 (k a)) -> paced lo P (l1 ++ l2) (bind m k).
Proof.
  intros Hm Hk t. unfold bind. destruct (Hm t) as (evs1 & E1 & HP1 & Hs1 & Hn1).
  destruct (m t) as [[a|e] t1]; simpl in E1; subst t1.
  - destruct (Hk a (t ++ evs1)) as (evs2 & E2 & HP2 & Hs2 & Hn2).
    exists (evs1 ++ evs2). rewrite E2, app_assoc, steps_of_app, posts_in_app, length_app.
    split; [reflexivity |]. split; [now apply Forall_app |].
    split; [now apply sublist_app | lia].
  - exists evs1. split; [reflexivity |]. split; [exact HP1 |].
    split; [now apply sublist_inserts_r | lia].
Qed.

Lemma paced_silent_bind {A B} l (m : M A) (k : A -> M B) :
  silent m -> (forall a, paced lo P l (k a)) -> paced lo P l (bind m k).
Proof. intros Hm Hk. apply (paced_bind [] l); [now apply paced_silent | exact Hk]. Qed.

Lemma paced_if {A} l (c : bool) (m1 m2 : M A) :
  (c = true -> paced lo P l m1) -> (c = false -> paced lo P l m2) ->
  paced lo P l (if c then m1 else m2).
Proof. destruct c; auto. Qed.

Lemma paced_assign r k (m : M pyval) : P (EStep k) -> sends lo P m -> paced lo P [k] (assign r k m).
Proof.
  intros Hk Hm t. destruct (Hm (t ++ [EStep k])) as (evs & E & HP & Hs & Hn).
  exists (EStep k :: evs). unfold assign, bind, log.
  destruct (m (t ++ [EStep k])) as [[d|e] t1]; simpl in E; subst t1; simpl;
    rewrite Hs, <- app_assoc; simpl;
    (split; [reflexivity |]; split; [now constructor |]; split; [reflexivity | lia]).
Qed.

(** A step that halts the pipeline when it fails. *)
Lemma paced_mandatory r k l (m : M pyval) (rest : report -> M report) :
  P (EStep k) -> sends lo P m -> (forall r', paced lo P l (rest r')) ->
  paced lo P (k :: l)
    (let* results := assign r k m in
     let* s := status_at results k in
     if negb (truthy s) then ret results else rest results).
Proof.
  intros Hk Hm Hrest. apply (paced_bind [k] l); [now apply paced_assign |].
  intros r'. apply paced_silent_bind; [apply silent_status_at |].
  intros s. apply paced_if; intros _; [apply paced_ret | apply Hrest].
Qed.

(** A step that is attempted or not, after which the pipeline goes on. *)
Lemma paced_optional {A} r k l (c : bool) (m : M pyval) (rest : report -> M A) :
  P (EStep k) -> (c = true -> sends lo P m) -> (forall r', paced lo P l (rest r')) ->
  paced lo P (k :: l)
    (let* results := if c then assign r k m else ret r in rest results).
Proof.
  intros Hk Hm Hrest. apply (paced_bind [k] l); [| exact Hrest].
  apply paced_if; [intros Hc; now apply paced_assign, Hm | intros _; apply paced_ret].
Qed.

End Pace.

Lemma paced_relax {A} P l (m : M A) : paced 1 P l m -> paced 0 P l m.
Proof.
  intros H t. destruct (H t) as (evs & E & HP & Hs & Hn).
  exists evs. split; [exact E |]. split; [exact HP |]. split; [exact Hs | lia].
Qed.

Lemma paced_allows {A} lo (P Q : event -> Prop) l (m : M A) :
  (forall e, P e -> Q e) -> paced lo P l m -> paced lo Q l m.
Proof.
  intros HPQ H t. destruct (H t) as (evs & E & HP & Hs & Hn).
  exists evs. split; [exact E |]. split; [| split; [exact Hs | lia]].
  eapply Forall_impl; [exact HP | exact HPQ].
Qed.

Lemma allowed_more self files files' e :
  (forall p, p ∈ files -> p ∈ files') -> allowed self files e -> allowed self files' e.
Proof. destruct e; simpl; auto. Qed.

Section Traffic.

Variable w : world.
Variable self : deployer.
Variable wp_config_php :
  deployer -> string -> string -> string -> string -> string -> string -> string.
Variable cmd_head : string.
Variable files : list string.

Lemma make_api_request_sends module function params :
  (module +:+ "/" +:+ function) ∈ endpoints ->
  sends 1 (allowed self files) (make_api_request w self module function params).
Proof.
  intros Hep t. eexists [_]. unfold make_api_request. simpl.
  split; [reflexivity |]. split; [| split; [reflexivity | simpl; lia]].
  repeat constructor. eexists; split; [exact Hep | reflexivity].
Qed.

Lemma sends_relax m : sends 1 (allowed self files) m -> sends 0 (allowed self files) m.
Proof.
  intros H t. destruct (H t) as (evs & E & HP & Hs & Hn).
  exists evs. split; [exact E |]. split; [exact HP |]. split; [exact Hs | lia].
Qed.

Lemma ret_sends (v : pyval) : sends 0 (allowed self files) (ret v).
Proof.
  intros t. exists []. rewrite app_nil_r. simpl.
  split; [reflexivity |]. split; [constructor |]. split; [reflexivity | lia].
Qed.

Lemma create_wp_config_sends p db user password host :
  sends 1 (allowed self files)
    (create_wp_config w self wp_config_php cmd_head p db user password host).
Proof.
  intros t. unfold create_wp_config, bind, fetch_salts.
  destruct (requests_get w t salt_url); eexists [EGet salt_url; _];
    unfold make_api_request; simpl; rewrite <- app_assoc;
    (split; [reflexivity |]; split; [| split; [reflexivity | simpl; lia]]);
    repeat constructor; (eexists; split; [| reflexivity]); repeat constructor.
Qed.

Lemma install_elementor_pro_sends p key zip :
  sends 0 (allowed self files) (install_elementor_pro w self p key zip).
Proof.
  unfold install_elementor_pro.
  destruct (opt_truthy key), (opt_truthy zip); simpl; try apply ret_sends.
  apply sends_relax, make_api_request_sends. repeat constructor.
Qed.

Lemma import_elementor_kit_sends p url file :
  sends 0 (allowed self files) (import_elementor_kit w self p url file).
Proof.
  unfold import_elementor_kit.
  destruct (opt_truthy url), (opt_truthy file); try apply ret_sends;
    apply sends_relax, make_api_request_sends; repeat constructor.
Qed.

Lemma upload_sends (on_error : string -> dict) (local_path server_path : string) :
  local_path ∈ files ->
  sends 0 (allowed self files)
    (let* content := read_base64 w local_path in
     match content with
     | inl e => ret (PDict (on_error e))
     | inr file_content_base64 =>
         make_api_request w self "Fileman" "save_file_content"
           (Some [("dir", PStr (dirname server_path)); ("file", PStr (basename server_path));
                  ("content", PStr file_content_base64)])
     end).
Proof.
  intros Hin t. unfold bind, read_base64.
  destruct (open_rb w t local_path) as [e|content].
  - exists [EOpen local_path]. simpl.
    split; [reflexivity |]. split; [| split; [reflexivity | simpl; lia]].
    now repeat constructor.
  - eexists [EOpen local_path; _]. unfold make_api_request. simpl. rewrite <- app_assoc.
    split; [reflexivity |]. split; [| split; [reflexivity | simpl; lia]].
    constructor; [exact Hin |]. repeat constructor.
    eexists; split; [| reflexivity]. repeat constructor.
Qed.

Lemma deploy_wordpress_paced a theme plugins :
  paced 1 (allowed self files) base_steps
    (deploy_wordpress w self wp_config_php cmd_head a theme plugins).
Proof.
  unfold deploy_wordpress, base_steps, critical_steps, optional_steps. cbn [app].
  do 7 (apply paced_mandatory;
        [exact I
        | first [ apply create_wp_config_sends
                | apply make_api_request_sends; repeat constructor ]
        | intros ? ]).
  apply paced_silent_bind; [auto 10 with silence | intros c].
  apply paced_optional;
    [exact I | intros _; apply make_api_request_sends; repeat constructor | intros ?].
  apply paced_silent_bind; [auto 10 with silence | intros c'].
  apply paced_optional;
    [exact I | intros _; apply make_api_request_sends; repeat constructor | intros ?].
  apply paced_silent; auto 10 with silence.
Qed.

Lemma deploy_wordpress_with_elementor_paced a key pro kit_url kit_local plugins :
  (opt_truthy pro = true -> default "" pro ∈ files) ->
  (opt_truthy kit_local = true -> default "" kit_local ∈ files) ->
  paced 0 (allowed self files) (base_steps ++ elementor_steps)
    (deploy_wordpress_with_elementor w self wp_config_php cmd_head a key pro kit_url
       kit_local plugins).
Proof.
  intros Hpro Hkit. unfold deploy_wordpress_with_elementor.
  apply paced_bind; [apply paced_relax, deploy_wordpress_paced | intros r0].
  apply paced_silent_bind; [auto with silence | intros ok].
  apply paced_if; intros _; [apply paced_ret |].
  unfold elementor_steps.
  apply (paced_bind _ _ ["elementor_installation"]);
    [apply paced_assign;
       [exact I | apply sends_relax, make_api_request_sends; repeat constructor] | intros r1].
  apply (paced_bind _ _ ["elementor_pro_upload"; "elementor_pro_installation"]).
  { apply paced_if; [intros Hc | intros _; apply paced_ret].
    apply andb_true_iff in Hc as [_ Hc].
    apply (paced_bind _ _ ["elementor_pro_upload"]);
      [apply paced_assign; [exact I | apply upload_sends, Hpro, Hc] | intros r2].
    apply paced_silent_bind; [auto with silence | intros s].
    apply paced_if; intros _; [| apply paced_ret].
    apply paced_assign; [exact I | apply install_elementor_pro_sends]. }
  intros r2.
  apply (paced_bind _ _ ["kit_upload"]).
  { apply paced_if; [intros Hc | intros _; apply paced_ret].
    apply paced_assign; [exact I | apply upload_sends, Hkit, Hc]. }
  intros r3.
  apply paced_silent_bind; [auto 10 with silence | intros c].
  apply paced_optional; [exact I | intros _; apply import_elementor_kit_sends | intros r4].
  apply paced_silent. auto 20 with silence.
Qed.

End Traffic.

Lemma option_list_default (o : option string) :
  opt_truthy o = true -> default "" o ∈ option_list o.
Proof. destruct o; [intros _; apply list_elem_of_here | discriminate]. Qed.

(** X5.  Every run of [deploy_wordpress] attempts steps of the pipeline in
    the pipeline's order, none twice, and sends exactly one POST for each
    step it attempts, nine at most.  Each POST carries the deployer's own
    headers and goes to one of five control-panel operations under the
    deployer's base URL; the only GET is to the WordPress salt service; no
    local file is opened. *)
Theorem base_pipeline_traffic
    (w : world) (self : deployer)
    (wp_config_php : deployer -> string -> string -> string -> string -> string -> string -> string)
    (cmd_head : string) (a : site)
    (install_theme : option string) (install_plugins : option (list string)) :
  let t := snd (run (deploy_wordpress w self wp_config_php cmd_head a install_theme
                       install_plugins)) in
  steps_of t `sublist_of` base_steps /\
  posts_in t = length (steps_of t) /\
  posts_in t <= 9 /\
  Forall (allowed self []) t.
Proof.
  intros t.
  destruct (deploy_wordpress_paced w self wp_config_php cmd_head [] a install_theme
              install_plugins []) as (evs & E & HP & Hs & Hn).
  change (t = [] ++ evs) in E. simpl in E. subst evs.
  assert (posts_in t = length (steps_of t)) as Hposts by lia.
  split; [exact Hs |]. split; [exact Hposts |]. split; [| exact HP].
  rewrite Hposts. apply sublist_length in Hs. exact Hs.
Qed.

(** X6.  Every run of [deploy_wordpress_with_elementor], whether it returns
    or raises, attempts steps of the two pipelines in order, none twice,
    and sends at most one POST per step, fourteen at most.  Each POST
    carries the deployer's own headers and goes to one of five control-panel
    operations under the deployer's base URL; the only GET is to the
    WordPress salt service; the only local files opened are the Pro package
    and the kit file that were supplied. *)
Theorem extended_pipeline_traffic
    (w : world) (self : deployer)
    (wp_config_php : deployer -> string -> string -> string -> string -> string -> string -> string)
    (cmd_head : string) (a : site)
    (elementor_pro_key elementor_pro_local_path kit_url kit_local_path : option string)
    (install_plugins : option (list string)) :
  let t := snd (run (deploy_wordpress_with_elementor w self wp_config_php cmd_head a
                       elementor_pro_key elementor_pro_local_path kit_url kit_local_path
                       install_plugins)) in
  steps_of t `sublist_of` base_steps ++ elementor_steps /\
  posts_in t <= length (steps_of t) /\
  posts_in t <= 14 /\
  Forall (allowed self (option_list elementor_pro_local_path ++ option_list kit_local_path)) t.
Proof.
  intros t.
  destruct (deploy_wordpress_with_elementor_paced w self wp_config_php cmd_head
              (option_list elementor_pro_local_path ++ option_list kit_local_path)
              a elementor_pro_key elementor_pro_local_path kit_url kit_local_path
              install_plugins) with (t := @nil event) as (evs & E & HP & Hs & Hn).
  - intros H. apply elem_of_app. left. now apply option_list_default.
  - intros H. apply elem_of_app. right. now apply option_list_default.
  - change (t = [] ++ evs) in E. simpl in E. subst evs.
    split; [exact Hs |]. split; [lia |]. split; [| exact HP].
    apply sublist_length in Hs. simpl in Hs. lia.
Qed.

(** ** Fields of the reports *)

Lemma agree_insert keys (r r0 : report) k v :
  k ∈ keys -> agree keys r r0 -> agree keys (<[k := v]> r) r0.
Proof.
  intros Hk H j Hj. rewrite lookup_insert_ne; [now apply H |].
  intros ->. contradiction.
Qed.

Lemma touches_ret keys r0 r : agree keys r r0 -> touches keys r0 (ret r).
Proof. intros H t r' t' E. injection E as <- _. exact H. Qed.

Lemma touches_assign keys r0 r k (m : M pyval) :
  k ∈ keys -> agree keys r r0 -> touches keys r0 (assign r k m).
Proof.
  intros Hk H t r' t'. unfold assign, bind, log, ret.
  destruct (m (t ++ [EStep k])) as [[d|e] t1]; [| discriminate].
  intros E. injection E as <- _. now apply agree_insert.
Qed.

Lemma touches_bind_report keys r0 (m : M report) (k : report -> M report) :
  touches keys r0 m -> (forall r, agree keys r r0 -> touches keys r0 (k r)) ->
  touches keys r0 (bind m k).
Proof.
  intros Hm Hk t r t'. unfold bind. specialize (Hm t).
  destruct (m t) as [[r1|e] t1]; [| discriminate].
  apply Hk. now apply (Hm r1 t1).
Qed.

Lemma touches_bind_any {A} keys r0 (m : M A) (k : A -> M report) :
  (forall a, touches keys r0 (k a)) -> touches keys r0 (bind m k).
Proof.
  intros Hk t r t'. unfold bind. destruct (m t) as [[a|e] t1]; [apply Hk | discriminate].
Qed.

Lemma touches_weaken keys keys' r0 (m : M report) :
  (forall k, k ∈ keys -> k ∈ keys') -> touches keys r0 m -> touches keys' r0 m.
Proof. intros Hsub H t r t' E k Hk. apply (H t r t' E). intros Hin. apply Hk, Hsub, Hin. Qed.

(** One step of the proof that a pipeline touches only its own fields. *)
Ltac frame :=
  lazymatch goal with
  | |- touches _ _ (assign _ _ _) => apply touches_assign; [repeat constructor | assumption]
  | |- touches _ _ (ret (<[_ := _]> _)) =>
      apply touches_ret, agree_insert; [repeat constructor | assumption]
  | |- touches _ _ (ret _) => apply touches_ret; assumption
  | |- touches _ _ (if ?c then _ else _) => destruct c
  | |- touches _ _ (bind _ _) =>
      first [ apply touches_bind_report; [| intros ? ?] | apply touches_bind_any; intros ? ]
  end.

Section Fields.

Variable w : world.
Variable self : deployer.
Variable wp_config_php :
  deployer -> string -> string -> string -> string -> string -> string -> string.
Variable cmd_head : string.

Lemma deploy_wordpress_touches a theme plugins :
  touches ("success" :: base_steps) (initial_results (domain a))
    (deploy_wordpress w self wp_config_php cmd_head a theme plugins).
Proof.
  unfold deploy_wordpress, base_steps, critical_steps, optional_steps. cbn [app].
  assert (agree ["success"; "database_creation"; "database_user_creation"; "user_privileges";
                 "wordpress_download"; "wp_config_creation"; "permissions"; "installation";
                 "theme_installation"; "plugin_installation"]
            (initial_results (domain a)) (initial_results (domain a))) by (intros k _; reflexivity).
  repeat frame.
Qed.

Lemma deploy_wordpress_with_elementor_touches a key pro kit_url kit_local plugins :
  touches ("success" :: base_steps ++ elementor_steps) (initial_results (domain a))
    (deploy_wordpress_with_elementor w self wp_config_php cmd_head a key pro kit_url
       kit_local plugins).
Proof.
  unfold deploy_wordpress_with_elementor.
  apply touches_bind_report.
  { eapply touches_weaken; [| apply deploy_wordpress_touches].
    intros k Hk. apply elem_of_cons in Hk as [-> | Hk]; [apply list_elem_of_here |].
    apply list_elem_of_further, elem_of_app. now left. }
  intros r0 H0.
  assert (agree ("success" :: base_steps ++ elementor_steps) (add_elementor_fields r0)
            (initial_results (domain a))) as H1.
  { unfold add_elementor_fields, base_steps, critical_steps, optional_steps, elementor_steps.
    cbn [app]. repeat (apply agree_insert; [repeat constructor |]). exact H0. }
  unfold base_steps, critical_steps, optional_steps, elementor_steps in *. cbn [app] in *.
  repeat frame.
Qed.

End Fields.

Lemma initial_results_fields domain k :
  k ∉ "success" :: base_steps ++ elementor_steps ->
  initial_results domain !! k
  = if String.eqb k "admin_url" then Some (PStr ("https://" +:+ domain +:+ "/wp-admin/"))
    else None.
Proof.
  intros Hk. unfold initial_results.
  destruct (String.eqb_spec k "admin_url") as [-> | Hne]; [apply lookup_insert_eq |].
  rewrite lookup_insert_ne by congruence.
  unfold base_steps, critical_steps, optional_steps, elementor_steps in Hk. cbn [app] in Hk.
  repeat (rewrite lookup_insert_ne;
          [| intros <-; apply Hk; repeat constructor]).
  apply lookup_empty.
Qed.

(** X7.  Whenever [deploy_wordpress_with_elementor] returns a report,
    whatever the outcome of the deployment, the report's [admin_url] is
    [https://{domain}/wp-admin/], and the report has no field other than
    [admin_url], [success] and the entries of the fourteen steps. *)
Theorem extended_report_fields
    (w : world) (self : deployer)
    (wp_config_php : deployer -> string -> string -> string -> string -> string -> string -> string)
    (cmd_head : string) (a : site)
    (elementor_pro_key elementor_pro_local_path kit_url kit_local_path : option string)
    (install_plugins : option (list string)) (r : report) (t : list event) :
  run (deploy_wordpress_with_elementor w self wp_config_php cmd_head a elementor_pro_key
         elementor_pro_local_path kit_url kit_local_path install_plugins) = (Returns r, t) ->
  r !! "admin_url" = Some (PStr ("https://" +:+ domain a +:+ "/wp-admin/")) /\
  forall k, is_Some (r !! k) -> k ∈ "admin_url" :: "success" :: base_steps ++ elementor_steps.
Proof.
  intros E.
  pose proof (deploy_wordpress_with_elementor_touches w self wp_config_php cmd_head a
                elementor_pro_key elementor_pro_local_path kit_url kit_local_path
                install_plugins [] r t E) as H.
  split.
  - rewrite H by (unfold base_steps, critical_steps, optional_steps, elementor_steps;
                  cbn [app]; not_in).
    rewrite initial_results_fields; [reflexivity |].
    unfold base_steps, critical_steps, optional_steps, elementor_steps; cbn [app]; not_in.
  - intros k Hk.
    destruct (decide (k ∈ "success" :: base_steps ++ elementor_steps)) as [Hin | Hout];
      [now apply list_elem_of_further |].
    rewrite (H k Hout), (initial_results_fields _ k Hout) in Hk.
    destruct (String.eqb_spec k "admin_url") as [Heq | _];
      [rewrite Heq; apply list_elem_of_here |].
    now destruct Hk.
Qed.

Lemma extended_report_fields_witness :
  let o := run (deploy_wordpress_with_elementor (world_failing []) the_deployer the_config_php
                  the_cmd_head the_site (Some "license") (Some "/tmp/elementor-pro.zip") None
                  (Some "/tmp/elementor-kit.zip") None) in
  report_of o !! "admin_url" = Some (PStr "https://yourdomain.com/wp-admin/").
Proof.
  intros o.
  refine (proj1 (extended_report_fields (world_failing []) the_deployer the_config_php
                   the_cmd_head the_site (Some "license") (Some "/tmp/elementor-pro.zip") None
                   (Some "/tmp/elementor-kit.zip") None (report_of o) (snd o) _)).
  vm_cast_no_check (eq_refl (Returns (report_of o), snd o)).
Defined.

(** X8.  Whenever [deploy_wordpress] returns a report, whatever the outcome
    of the deployment, the report's [admin_url] is
    [https://{domain}/wp-admin/], and its fields are exactly [admin_url],
    [success] and the entries of the nine steps. *)
Theorem base_report_fields
    (w : world) (self : deployer)
    (wp_config_php : deployer -> string -> string -> string -> string -> string -> string -> string)
    (cmd_head : string) (a : site)
    (install_theme : option string) (install_plugins : option (list string))
    (r : report) (t : list event) :
  run (deploy_wordpress w self wp_config_php cmd_head a install_theme install_plugins)
  = (Returns r, t) ->
  r !! "admin_url" = Some (PStr ("https://" +:+ domain a +:+ "/wp-admin/")) /\
  forall k, is_Some (r !! k) <-> k ∈ "admin_url" :: "success" :: base_steps.
Proof.
  intros E.
  destruct (deploy_wordpress_returns w self wp_config_php cmd_head a install_theme
              install_plugins r t E) as ((b & Hsucc & _) & Hlists & _).
  pose proof (deploy_wordpress_touches w self wp_config_php cmd_head a install_theme
                install_plugins [] r t E) as H.
  assert (forall k, k ∉ "success" :: base_steps ->
            r !! k = if String.eqb k "admin_url"
                     then Some (PStr ("https://" +:+ domain a +:+ "/wp-admin/")) else None)
    as Hother.
  { intros k Hk. rewrite (H k Hk). unfold initial_results.
    destruct (String.eqb_spec k "admin_url") as [-> | Hne]; [apply lookup_insert_eq |].
    rewrite lookup_insert_ne by congruence.
    unfold base_steps, critical_steps, optional_steps in Hk. cbn [app] in Hk.
    repeat (rewrite lookup_insert_ne; [| intros <-; apply Hk; repeat constructor]).
    apply lookup_empty. }
  split.
  - rewrite Hother; [reflexivity |].
    unfold base_steps, critical_steps, optional_steps; cbn [app]; not_in.
  - intros k. split.
    + intros Hk.
      destruct (decide (k ∈ "success" :: base_steps)) as [Hin | Hout];
        [now apply list_elem_of_further |].
      rewrite (Hother k Hout) in Hk.
      destruct (String.eqb_spec k "admin_url") as [Heq | _];
        [rewrite Heq; apply list_elem_of_here |].
      now destruct Hk.
    + intros Hk. apply elem_of_cons in Hk as [-> | Hk].
      { rewrite Hother; [eauto |].
        unfold base_steps, critical_steps, optional_steps; cbn [app]; not_in. }
      apply elem_of_cons in Hk as [-> | Hk]; [rewrite Hsucc; eauto |].
      apply (Hlists k Hk).
Qed.

Lemma base_report_fields_witness :
  let o := run (deploy_wordpress (world_failing [4%nat]) the_deployer the_config_php
                  the_cmd_head the_site (Some "astra") None) in
  report_of o !! "admin_url" = Some (PStr "https://yourdomain.com/wp-admin/") /\
  is_Some (report_of o !! "plugin_installation") /\
  report_of o !! "elementor_installation" = None.
Proof.
  intros o.
  destruct (base_report_fields (world_failing [4%nat]) the_deployer the_config_php
              the_cmd_head the_site (Some "astra") None (report_of o) (snd o))
    as (Hurl & Hfields).
  - vm_cast_no_check (eq_refl (Returns (report_of o), snd o)).
  - split; [exact Hurl |]. split.
    + apply Hfields. unfold base_steps, critical_steps, optional_steps. cbn [app].
      repeat constructor.
    + destruct (report_of o !! "elementor_installation") as [v|] eqn:Hv; [| reflexivity].
      exfalso. assert (Hin : is_Some (report_of o !! "elementor_installation")) by eauto.
      apply Hfields in Hin. unfold base_steps, critical_steps, optional_steps in Hin.
      cbn [app] in Hin. in_cases Hin; discriminate.
Defined.

(** ** The verdict of the extended pipeline *)

(** X9.  In every report that [deploy_wordpress_with_elementor] returns,
    [success] is truthy exactly when the seven critical steps of the base
    pipeline succeeded, the free Elementor install succeeded, the Pro
    upload and the Pro install succeeded if a license key and a package
    were both supplied, and, if a kit URL or a kit file was supplied, the
    kit upload (for a file) and the kit import succeeded. *)
Theorem extended_success_is_the_verdict
    (w : world) (self : deployer)
    (wp_config_php : deployer -> string -> string -> string -> string -> string -> string -> string)
    (cmd_head : string) (a : site)
    (elementor_pro_key elementor_pro_local_path kit_url kit_local_path : option string)
    (install_plugins : option (list string)) (r : report) (t : list event) :
  run (deploy_wordpress_with_elementor w self wp_config_php cmd_head a elementor_pro_key
         elementor_pro_local_path kit_url kit_local_path install_plugins) = (Returns r, t) ->
  exists success,
    r !! "success" = Some success /\
    truthy success
    = forallb (entry_ok r) critical_steps
      && elementor_verdict r elementor_pro_key elementor_pro_local_path kit_url kit_local_path.
Proof.
  intros E.
  destruct (sat_returns _ _ _ _ _ _
              (ext_verdict_sat w self wp_config_php cmd_head a elementor_pro_key
                 elementor_pro_local_path kit_url kit_local_path install_plugins) E)
    as (v & Hv & Hverdict & _).
  exists v. split; assumption.
Qed.

Lemma extended_success_is_the_verdict_witness :
  let o := run (deploy_wordpress_with_elementor (world_failing [9%nat]) the_deployer
                  the_config_php the_cmd_head the_site (Some "license")
                  (Some "/tmp/elementor-pro.zip") None (Some "/tmp/elementor-kit.zip") None) in
  exists success,
    report_of o !! "success" = Some success /\
    truthy success
    = forallb (entry_ok (report_of o)) critical_steps
      && elementor_verdict (report_of o) (Some "license") (Some "/tmp/elementor-pro.zip") None
           (Some "/tmp/elementor-kit.zip").
Proof.
  intros o.
  refine (extended_success_is_the_verdict (world_failing [9%nat]) the_deployer the_config_php
            the_cmd_head the_site (Some "license") (Some "/tmp/elementor-pro.zip") None
            (Some "/tmp/elementor-kit.zip") None (report_of o) (snd o) _).
  vm_cast_no_check (eq_refl (Returns (report_of o), snd o)).
Defined.

(** X10.  When the seven critical steps are recorded as done, the [success]
    that [deploy_wordpress_with_elementor] returns is, [and] returning one
    of its operands, the status value of the recorded result of one of the
    Elementor steps: the [status] field of that result, or the default [0]
    when the result has no such field, the result being one the control
    panel sent or one the program made up locally. *)
Theorem extended_success_is_a_status_value
    (w : world) (self : deployer)
    (wp_config_php : deployer -> string -> string -> string -> string -> string -> string -> string)
    (cmd_head : string) (a : site)
    (elementor_pro_key elementor_pro_local_path kit_url kit_local_path : option string)
    (install_plugins : option (list string)) (r : report) (t : list event) :
  run (deploy_wordpress_with_elementor w self wp_config_php cmd_head a elementor_pro_key
         elementor_pro_local_path kit_url kit_local_path install_plugins) = (Returns r, t) ->
  forallb (entry_ok r) critical_steps = true ->
  exists k d,
    k ∈ elementor_steps /\ r !! k = Some (PDict d) /\ r !! "success" = Some (status d).
Proof.
  intros E Hbase.
  destruct (sat_returns _ _ _ _ _ _
              (ext_verdict_sat w self wp_config_php cmd_head a elementor_pro_key
                 elementor_pro_local_path kit_url kit_local_path install_plugins) E)
    as (v & Hv & _ & Hvalue).
  destruct (Hvalue Hbase) as (k & d & Hk & Hd & ->).
  exists k, d. split; [exact Hk |]. split; assumption.
Qed.

Lemma extended_success_is_a_status_value_witness :
  let o := run (deploy_wordpress_with_elementor (world_failing []) the_deployer
                  the_config_php the_cmd_head the_site None None None None None) in
  report_of o !! "success" = Some (PInt 1) /\
  exists k d,
    k ∈ elementor_steps /\ report_of o !! k = Some (PDict d) /\
    report_of o !! "success" = Some (status d).
Proof.
  intros o. split; [vm_compute; reflexivity |].
  refine (extended_success_is_a_status_value (world_failing []) the_deployer the_config_php
            the_cmd_head the_site None None None None None (report_of o) (snd o) _ _).
  - vm_cast_no_check (eq_refl (Returns (report_of o), snd o)).
  - vm_compute. reflexivity.
Defined.

(** X11.  When [deploy_wordpress_with_elementor] raises, either one of its
    requests was answered in a way it cannot read (an exception that is
    not a [RequestException], or a body that is not a JSON object), or the
    exception is the [AttributeError] of a [get] on [None]: a kit URL or a
    kit file was supplied and the free Elementor install had returned a
    failed result, so that the kit import was never attempted. *)
Theorem extended_pipeline_raises_only_on_skipped_import
    (w : world) (self : deployer)
    (wp_config_php : deployer -> string -> string -> string -> string -> string -> string -> string)
    (cmd_head : string) (a : site)
    (elementor_pro_key elementor_pro_local_path kit_url kit_local_path : option string)
    (install_plugins : option (list string)) (e : exn) (t : list event) :
  run (deploy_wordpress_with_elementor w self wp_config_php cmd_head a elementor_pro_key
         elementor_pro_local_path kit_url kit_local_path install_plugins) = (Raises e, t) ->
  bad_answer_in_log w self t \/
  (e = AttributeError "'NoneType' object has no attribute 'get'" /\
   opt_truthy kit_url || opt_truthy kit_local_path = true /\
   ("kit_import" ∉ steps_of t) /\
   exists t1 d t2,
     install_elementor w self (path a) (t1 ++ [EStep "elementor_installation"])
     = (Returns (PDict d), t2) /\
     t2 `prefix_of` t /\ truthy (status d) = false).
Proof.
  intros E.
  pose proof (ext_verdict_sat w self wp_config_php cmd_head a elementor_pro_key
                elementor_pro_local_path kit_url kit_local_path install_plugins) as H.
  unfold sat in H. unfold run in E. rewrite E in H. exact H.
Qed.

Lemma extended_pipeline_raises_only_on_skipped_import_witness :
  let o := run (deploy_wordpress_with_elementor (world_failing [7%nat]) the_deployer
                  the_config_php the_cmd_head the_site None None
                  (Some "https://example.com/kit.zip") None None) in
  "kit_import" ∉ steps_of (snd o).
Proof.
  intros o.
  destruct (extended_pipeline_raises_only_on_skipped_import (world_failing [7%nat])
              the_deployer the_config_php the_cmd_head the_site None None
              (Some "https://example.com/kit.zip") None None
              (AttributeError "'NoneType' object has no attribute 'get'") (snd o))
    as [Hbad | (_ & _ & Hnot & _)].
  - vm_cast_no_check
      (eq_refl (@Raises report (AttributeError "'NoneType' object has no attribute 'get'"),
                snd o)).
  - destruct (answers_objects_in_log _ _ _ (world_failing_answers_objects _ _) Hbad).
  - exact Hnot.
Defined.

(** X12.  When neither a kit URL nor a kit file is supplied and the control
    panel answers with JSON objects, [deploy_wordpress_with_elementor]
    returns a report, whatever the statuses in the answers. *)
Theorem extended_pipeline_returns_without_kit
    (w : world) (self : deployer)
    (wp_config_php : deployer -> string -> string -> string -> string -> string -> string -> string)
    (cmd_head : string) (a : site)
    (elementor_pro_key elementor_pro_local_path kit_url kit_local_path : option string)
    (install_plugins : option (list string)) :
  answers_objects w self ->
  opt_truthy kit_url = false -> opt_truthy kit_local_path = false ->
  exists r t,
    run (deploy_wordpress_with_elementor w self wp_config_php cmd_head a elementor_pro_key
           elementor_pro_local_path kit_url kit_local_path install_plugins) = (Returns r, t).
Proof.
  intros Hw Hurl Hlocal.
  pose proof (ext_verdict_sat w self wp_config_php cmd_head a elementor_pro_key
                elementor_pro_local_path kit_url kit_local_path install_plugins) as H.
  unfold sat in H. unfold run.
  destruct (deploy_wordpress_with_elementor w self wp_config_php cmd_head a elementor_pro_key
              elementor_pro_local_path kit_url kit_local_path install_plugins [])
    as [[r|e] t]; [eauto |].
  destruct H as [Hbad | (_ & Hkit & _)].
  - destruct (answers_objects_in_log w self t Hw Hbad).
  - rewrite Hurl, Hlocal in Hkit. discriminate Hkit.
Qed.

Lemma extended_pipeline_returns_without_kit_witness :
  exists r t,
    run (deploy_wordpress_with_elementor (world_failing [7%nat; 8%nat]) the_deployer
           the_config_php the_cmd_head the_site (Some "license")
           (Some "/tmp/elementor-pro.zip") None (Some "") None) = (Returns r, t).
Proof.
  exact (extended_pipeline_returns_without_kit (world_failing [7%nat; 8%nat]) the_deployer
           the_config_php the_cmd_head the_site (Some "license")
           (Some "/tmp/elementor-pro.zip") None (Some "") None
           (world_failing_answers_objects _ _) eq_refl eq_refl).
Defined.

(** ** What the steps send *)



(** X14.  When the base pipeline succeeds and a non-empty list of plugins was
    asked for, all the plugins are installed by one request, the last of the
    run: a single command that chains one [wp plugin install] per plugin
    with [&&], in the order of the list.  What [make_api_request] makes of
    the answer to that request is the recorded result of the step. *)
Theorem plugins_are_installed_by_one_request
    (w : world) (self : deployer)
    (wp_config_php : deployer -> string -> string -> string -> string -> string -> string -> string)
    (cmd_head : string) (a : site)
    (install_theme : option string) (install_plugins : option (list string))
    (r : report) (t : list event) :
  optlist_truthy install_plugins = true ->
  run (deploy_wordpress w self wp_config_php cmd_head a install_theme install_plugins)
  = (Returns r, t) ->
  r !! "success" = Some (PBool true) ->
  let url := base_url self +:+ "Execute/exec" in
  let body :=
    [("command",
      PStr ("cd " +:+ path a +:+ " && "
            +:+ join " && " (map (fun p => "wp plugin install " +:+ p +:+ " --activate")
                                 (default [] install_plugins))))] in
  exists t1 answer,
    steps_of t1
    = critical_steps ++ (if opt_truthy install_theme then ["theme_installation"] else []) /\
    t = t1 ++ [EStep "plugin_installation"; EPost url (headers self) body] /\
    api_result (requests_post w (t1 ++ [EStep "plugin_installation"]) url (headers self) body)
    = Returns answer /\
    r !! "plugin_installation" = Some answer.
Proof.
  intros Hplugins E Hsucc.
  exact (sat_returns _ _ _ _ _ _
           (plugins_sat w self wp_config_php cmd_head a install_theme install_plugins Hplugins)
           E Hsucc).
Qed.

Lemma plugins_are_installed_by_one_request_witness :
  let o := run (deploy_wordpress (world_failing []) the_deployer the_config_php the_cmd_head
                  the_site None (Some ["contact-form-7"; "yoast-seo"; "wordfence"])) in
  exists t1,
    steps_of t1 = critical_steps /\
    snd o = t1 ++ [EStep "plugin_installation";
                   EPost "https://example.com:2083/execute/Execute/exec" (headers the_deployer)
                     [("command",
                       PStr "cd /home/username/public_html && wp plugin install contact-form-7 --activate && wp plugin install yoast-seo --activate && wp plugin install wordfence --activate")]].
Proof.
  intros o.
  destruct (plugins_are_installed_by_one_request (world_failing []) the_deployer the_config_php
              the_cmd_head the_site None (Some ["contact-form-7"; "yoast-seo"; "wordfence"])
              (report_of o) (snd o) eq_refl) as (t1 & answer & Hsteps & Ht & _).
  - vm_cast_no_check (eq_refl (Returns (report_of o), snd o)).
  - vm_compute. reflexivity.
  - exists t1. split; [rewrite Hsteps; now rewrite app_nil_r | exact Ht].
Defined.



(** ** The database requests *)

Section Database.

Variable w : world.
Variable self : deployer.
Variable wp_config_php :
  deployer -> string -> string -> string -> string -> string -> string -> string.
Variable cmd_head : string.



End Database.



(** ** The optional steps of the base pipeline *)


